(** * py_uds_lib: UDS request encoder (src/py_uds_lib.py)

    A shallow embedding of the [Services] class and of the [Sid] and [Nrc]
    catalogs.
    Python integers are [Z]; [&] is [Z.land] and [>>] is [Z.shiftr] (both
    agree with Python on negative numbers, which are treated as infinite
    two's complement).  Python strings are [string].  A method that can
    raise returns [result]; the single method that prints returns its
    standard output next to its result. *)

From Stdlib Require Import ZArith List String Ascii Bool Lia.
Import ListNotations.

Local Open Scope string_scope.
Local Open Scope Z_scope.

(** ** Exceptions *)

Inductive exn : Type :=
| OverflowError
| TypeError
| IndexError
| ValueError.

Inductive result (A : Type) : Type :=
| Ok (a : A)
| Raise (e : exn).

Arguments Ok {A} a.
Arguments Raise {A} e.

Definition bind {A B : Type} (m : result A) (k : A -> result B) : result B :=
  match m with
  | Ok a => k a
  | Raise e => Raise e
  end.

Notation "x <- m ;; k" := (bind m (fun x => k))
  (at level 61, m at next level, right associativity).

Definition is_ok {A : Type} (m : result A) : bool :=
  match m with
  | Ok _ => true
  | Raise _ => false
  end.

(** ** Python builtins used by the encoder *)

Module Py.

(** Runtime values on which [&] and [>>] are applied in the source. *)
Inductive value : Type :=
| VInt (z : Z)
| VStr (s : string)
| VList
| VNone.

(** [a & b]: defined on two ints only. *)
Definition and_ (a b : value) : result Z :=
  match a, b with
  | VInt x, VInt y => Ok (Z.land x y)
  | _, _ => Raise TypeError
  end.

(** [a >> b] with a non-negative count: defined on two ints only. *)
Definition rshift (a b : value) : result Z :=
  match a, b with
  | VInt x, VInt y => Ok (Z.shiftr x y)
  | _, _ => Raise TypeError
  end.

Definition of_opt_int (o : option Z) : value :=
  match o with
  | Some z => VInt z
  | None => VNone
  end.

(** [for value in o]: iterating [None] raises. *)
Definition iter (o : option (list Z)) : result (list Z) :=
  match o with
  | Some l => Ok l
  | None => Raise TypeError
  end.

(** [l[i]] for a constant index [i]. *)
Definition index (l : list Z) (i : nat) : result Z :=
  match nth_error l i with
  | Some z => Ok z
  | None => Raise IndexError
  end.

(** [" ".join(l)] *)
Fixpoint join_space (l : list string) : string :=
  match l with
  | [] => ""
  | [s] => s
  | s :: rest => s ++ " " ++ join_space rest
  end.

(** [reversed(range(n))] *)
Definition reversed_range (n : Z) : list Z :=
  rev (map Z.of_nat (seq 0 (Z.to_nat n))).

(** [n.bit_length()]: the bits of the absolute value. *)
Definition bit_length (n : Z) : Z :=
  if n =? 0 then 0 else Z.log2 (Z.abs n) + 1.

(** [round(b / 8)] for a non-negative int [b]: the quotient is exact in
    binary floating point (for any [b] below 2^53), and [round] takes a
    half to the even neighbour. *)
Definition round_div8 (b : Z) : Z :=
  let q := b / 8 in
  let r := b mod 8 in
  if r <? 4 then q
  else if 4 <? r then q + 1
  else if Z.even q then q else q + 1.

(** Digits of a non-negative number, least significant first. *)
Fixpoint digits_le (fuel : nat) (base n : Z) : list Z :=
  match fuel with
  | O => []
  | S fuel' =>
      if n <? base then [n]
      else (n mod base) :: digits_le fuel' base (n / base)
  end.

Definition digits (base n : Z) : list Z :=
  rev (digits_le (S (Z.to_nat (Z.log2 n))) base n).

Definition digit_char (d : Z) : ascii :=
  match d with
  | 0 => "0" | 1 => "1" | 2 => "2" | 3 => "3"
  | 4 => "4" | 5 => "5" | 6 => "6" | 7 => "7"
  | 8 => "8" | 9 => "9" | 10 => "A" | 11 => "B"
  | 12 => "C" | 13 => "D" | 14 => "E" | _ => "F"
  end%char.

Definition render (base n : Z) : string :=
  string_of_list_ascii (map digit_char (digits base n)).

(** [f'{n:02X}']: upper-case hexadecimal, sign first, zero-filled to a
    total width of two characters. *)
Definition format_02X (n : Z) : string :=
  if n <? 0 then "-" ++ render 16 (- n)
  else
    let s := render 16 n in
    if (String.length s <? 2)%nat then "0" ++ s else s.

(** The decimal text of an integer, sign first. *)
Definition decimal_text (n : Z) : string :=
  if n <? 0 then "-" ++ render 10 (- n) else render 10 n.

(** [sys.get_int_max_str_digits()], at its default. *)
Definition int_max_str_digits : Z := 4300.

(** The least magnitude with more decimal digits than the limit allows. *)
Definition str_limit : Z := 10 ^ int_max_str_digits.

(** [f'{n}']: the decimal text, or a ValueError when the integer has more
    than [int_max_str_digits] decimal digits (hexadecimal formatting has no
    such limit). *)
Definition str (n : Z) : result string :=
  if str_limit <=? Z.abs n then Raise ValueError else Ok (decimal_text n).

(** [n.to_bytes(length)]: unsigned, in the default byte order (big-endian,
    Python 3.11 and later). *)
Definition to_bytes (n length : Z) : result (list Z) :=
  if n <? 0 then Raise OverflowError
  else if n <? 256 ^ length then
    Ok (map (fun i => Z.land (Z.shiftr n (i * 8)) 0xFF) (reversed_range length))
  else Raise OverflowError.

End Py.

(** ** Service identifiers (class [Sid]) *)

Module Sid.
(* Diagnostic and communication management *)
Definition diagnostic_session_control : Z := 0x10.
Definition DSC : Z := diagnostic_session_control.
Definition ecu_reset : Z := 0x11.
Definition ER : Z := ecu_reset.
Definition security_access : Z := 0x27.
Definition SA : Z := security_access.
Definition communication_control : Z := 0x28.
Definition CC : Z := communication_control.
Definition tester_present : Z := 0x3E.
Definition TP : Z := tester_present.
Definition access_timing_parameter : Z := 0x83.
Definition ATP : Z := access_timing_parameter.
Definition secured_data_transmission : Z := 0x84.
Definition SDT : Z := secured_data_transmission.
Definition control_dtc_setting : Z := 0x85.
Definition CDTCS : Z := control_dtc_setting.
Definition response_on_event : Z := 0x86.
Definition ROE : Z := response_on_event.
Definition link_control : Z := 0x87.
Definition LC : Z := link_control.
(* Data transmission *)
Definition read_data_by_identifier : Z := 0x22.
Definition RDBI : Z := read_data_by_identifier.
Definition read_memory_by_address : Z := 0x23.
Definition RMBA : Z := read_memory_by_address.
Definition read_scaling_data_by_identifier : Z := 0x24.
Definition RSDBI : Z := read_scaling_data_by_identifier.
Definition read_data_by_periodic_identifier : Z := 0x2A.
Definition RDBPI : Z := read_data_by_periodic_identifier.
Definition dynamically_define_data_identifier : Z := 0x2C.
Definition DDDI : Z := dynamically_define_data_identifier.
Definition write_data_by_identifier : Z := 0x2E.
Definition WDBI : Z := write_data_by_identifier.
Definition write_memory_by_address : Z := 0x3D.
Definition WMBA : Z := write_memory_by_address.
(* Stored data transmission *)
Definition clear_diagnostic_information : Z := 0x14.
Definition CDTCI : Z := clear_diagnostic_information.
Definition read_dtc_information : Z := 0x19.
Definition RDTCI : Z := read_dtc_information.
(* Input Output control *)
Definition input_output_control_by_identifier : Z := 0x2F.
Definition IOCBI : Z := input_output_control_by_identifier.
(* Remote activation of routine *)
Definition routine_control : Z := 0x31.
Definition RC : Z := routine_control.
(* Upload download *)
Definition request_download : Z := 0x34.
Definition RD : Z := request_download.
Definition request_upload : Z := 0x35.
Definition RU : Z := request_upload.
Definition transfer_data : Z := 0x36.
Definition TD : Z := transfer_data.
Definition request_transfer_exit : Z := 0x37.
Definition RTE : Z := request_transfer_exit.
Definition request_file_transfer : Z := 0x38.
Definition RFT : Z := request_file_transfer.
(* Negative Response *)
Definition negative_response : Z := 0x7F.
Definition NR : Z := negative_response.
End Sid.

(** The sub-function identifiers (class [Sfid]) that the statements below
    refer to. *)
Module Sfid.
Definition define_by_identifier : Z := 0x01.
Definition DBID : Z := define_by_identifier.
Definition define_by_memory_address : Z := 0x02.
Definition DBMA : Z := define_by_memory_address.
Definition clear_dynamically_defined_data_identifier : Z := 0x03.
Definition CDDDID : Z := clear_dynamically_defined_data_identifier.
Definition start_routine : Z := 0x01.
Definition STR : Z := start_routine.
Definition stop_routine : Z := 0x02.
Definition STPR : Z := stop_routine.
Definition request_routine_result : Z := 0x03.
Definition RRR : Z := request_routine_result.
End Sfid.

(** ** Negative response codes (class [Nrc]) *)

Module Nrc.
Definition general_reject : Z := 0x10.
Definition GR : Z := general_reject.
Definition service_not_supported : Z := 0x11.
Definition SNS : Z := service_not_supported.
Definition sub_function_not_supported : Z := 0x12.
Definition SFNS : Z := sub_function_not_supported.
Definition incorrect_message_length_or_invalid_format : Z := 0x13.
Definition IMLOIF : Z := incorrect_message_length_or_invalid_format.
Definition response_too_long : Z := 0x14.
Definition RTL : Z := response_too_long.
Definition busy_repeat_request : Z := 0x21.
Definition BRR : Z := busy_repeat_request.
Definition conditions_not_correct : Z := 0x22.
Definition CNC : Z := conditions_not_correct.
Definition request_sequence_error : Z := 0x24.
Definition RSE : Z := request_sequence_error.
Definition no_response_from_subnet_component : Z := 0x25.
Definition NRFSC : Z := no_response_from_subnet_component.
Definition failure_prevents_execution_of_requested_action : Z := 0x26.
Definition FPEORA : Z := failure_prevents_execution_of_requested_action.
Definition request_out_of_range : Z := 0x31.
Definition ROOR : Z := request_out_of_range.
Definition security_access_denied : Z := 0x33.
Definition SAD : Z := security_access_denied.
Definition invalid_key : Z := 0x35.
Definition IK : Z := invalid_key.
Definition exceeded_number_of_attempts : Z := 0x36.
Definition ENOA : Z := exceeded_number_of_attempts.
Definition required_time_delay_not_expired : Z := 0x37.
Definition RTDNE : Z := required_time_delay_not_expired.
Definition upload_download_not_accepted : Z := 0x70.
Definition UDNA : Z := upload_download_not_accepted.
Definition transfer_data_suspended : Z := 0x71.
Definition TDS : Z := transfer_data_suspended.
Definition general_programming_failure : Z := 0x72.
Definition GPF : Z := general_programming_failure.
Definition wrong_block_sequence_counter : Z := 0x73.
Definition WBSC : Z := wrong_block_sequence_counter.
Definition request_correctly_received_response_pending : Z := 0x78.
Definition RCRRP : Z := request_correctly_received_response_pending.
Definition sub_function_not_supported_in_active_session : Z := 0x7E.
Definition SFNSIAS : Z := sub_function_not_supported_in_active_session.
Definition service_not_supported_in_active_session : Z := 0x7F.
Definition SNSIAS : Z := service_not_supported_in_active_session.
Definition rpm_too_high : Z := 0x81.
Definition RPMTH : Z := rpm_too_high.
Definition rpm_too_low : Z := 0x82.
Definition RPMTL : Z := rpm_too_low.
Definition engine_is_running : Z := 0x83.
Definition EIR : Z := engine_is_running.
Definition engine_is_not_running : Z := 0x84.
Definition EINR : Z := engine_is_not_running.
Definition engine_run_time_too_low : Z := 0x85.
Definition ERTTL : Z := engine_run_time_too_low.
Definition temperature_too_high : Z := 0x86.
Definition TEMPTH : Z := temperature_too_high.
Definition temperature_too_low : Z := 0x87.
Definition TEMPTL : Z := temperature_too_low.
Definition vehicle_speed_too_high : Z := 0x88.
Definition VSTH : Z := vehicle_speed_too_high.
Definition vehicle_speed_too_low : Z := 0x89.
Definition VSTL : Z := vehicle_speed_too_low.
Definition throttle_or_pedal_too_high : Z := 0x8A.
Definition TPTH : Z := throttle_or_pedal_too_high.
Definition throttle_or_pedal_too_low : Z := 0x8B.
Definition TPTL : Z := throttle_or_pedal_too_low.
Definition transmission_range_not_in_neutral : Z := 0x8C.
Definition TRNIN : Z := transmission_range_not_in_neutral.
Definition transmission_range_not_in_gear : Z := 0x8D.
Definition TRNIG : Z := transmission_range_not_in_gear.
Definition brake_switch_not_closed : Z := 0x8F.
Definition BSNC : Z := brake_switch_not_closed.
Definition shifter_lever_not_in_park : Z := 0x90.
Definition SLNIP : Z := shifter_lever_not_in_park.
Definition torque_converter_clutch_locked : Z := 0x91.
Definition TCCL : Z := torque_converter_clutch_locked.
Definition voltage_too_high : Z := 0x92.
Definition VTH : Z := voltage_too_high.
Definition voltage_too_low : Z := 0x93.
Definition VTL : Z := voltage_too_low.
End Nrc.

(** ** The catalogs as lists, in source order *)

Module Catalog.
Definition service_identifiers : list Z :=
  [Sid.DSC; Sid.ER; Sid.SA; Sid.CC; Sid.TP; Sid.ATP; Sid.SDT; Sid.CDTCS;
   Sid.ROE; Sid.LC; Sid.RDBI; Sid.RMBA; Sid.RSDBI; Sid.RDBPI; Sid.DDDI;
   Sid.WDBI; Sid.WMBA; Sid.CDTCI; Sid.RDTCI; Sid.IOCBI; Sid.RC; Sid.RD;
   Sid.RU; Sid.TD; Sid.RTE; Sid.RFT; Sid.NR].

Definition negative_response_codes : list Z :=
  [Nrc.GR; Nrc.SNS; Nrc.SFNS; Nrc.IMLOIF; Nrc.RTL; Nrc.BRR; Nrc.CNC; Nrc.RSE;
   Nrc.NRFSC; Nrc.FPEORA; Nrc.ROOR; Nrc.SAD; Nrc.IK; Nrc.ENOA; Nrc.RTDNE;
   Nrc.UDNA; Nrc.TDS; Nrc.GPF; Nrc.WBSC; Nrc.RCRRP; Nrc.SFNSIAS; Nrc.SNSIAS;
   Nrc.RPMTH; Nrc.RPMTL; Nrc.EIR; Nrc.EINR; Nrc.ERTTL; Nrc.TEMPTH;
   Nrc.TEMPTL; Nrc.VSTH; Nrc.VSTL; Nrc.TPTH; Nrc.TPTL; Nrc.TRNIN; Nrc.TRNIG;
   Nrc.BSNC; Nrc.SLNIP; Nrc.TCCL; Nrc.VTH; Nrc.VTL].
End Catalog.

(** ** Request builder (class [Services]) *)

Module Services.
Import Py.

(** The source's inline [" ".join([f"{value & 0xFF:02X}" for value in l])]. *)
Definition join_masked (l : list Z) : string :=
  join_space (map (fun value => format_02X (Z.land value 0xFF)) l).

(** The source's inline
    [" ".join([f"{(v >> (i * 8)) & 0xFF:02X}" for i in reversed(range(n))])]. *)
Definition join_sized (v n : Z) : string :=
  join_space
    (map (fun i => format_02X (Z.land (Z.shiftr v (i * 8)) 0xFF))
         (reversed_range n)).

Fixpoint map_m {A B : Type} (f : A -> result B) (l : list A)
  : result (list B) :=
  match l with
  | [] => Ok []
  | a :: rest => b <- f a ;; bs <- map_m f rest ;; Ok (b :: bs)
  end.

(** [for x in l: request = body(request, x)] *)
Fixpoint for_each {A : Type} (body : string -> A -> result string)
         (l : list A) (request : string) : result string :=
  match l with
  | [] => Ok request
  | a :: rest => request' <- body request a ;; for_each body rest request'
  end.

Definition convert_int_to_str_of_bytes (integer_value : Z) : result string :=
  let number_of_bytes := round_div8 (bit_length integer_value) in
  bytes <- to_bytes integer_value number_of_bytes ;;
  Ok (join_space (map format_02X bytes)).

(* Diagnostic and communication management *)

Definition diagnostic_session_control (diagnostic_session_type : Z) : string :=
  format_02X Sid.DSC ++ " " ++ format_02X diagnostic_session_type.

Definition ecu_reset (reset_type : Z) : string :=
  format_02X Sid.ER ++ " " ++ format_02X reset_type.

Definition security_access (security_access_type : Z)
           (security_access_data_record : option (list Z)) : string :=
  let request :=
    format_02X Sid.SA ++ " " ++ format_02X (Z.land security_access_type 0xFF) in
  match security_access_data_record with
  | Some record => request ++ " " ++ join_masked record
  | None => request
  end.

(** The low byte of the node number is formatted in decimal; it is within
    0..255, where [str] cannot raise and returns [decimal_text]
    ([str_of_masked] below).  The same holds in [read_data_by_identifier],
    [read_memory_by_address] and for the link record of [link_control]. *)
Definition communication_control (control_type communication_type : Z)
           (node_identification_number : option Z) : string :=
  let request :=
    format_02X Sid.CC ++ " " ++ format_02X (Z.land control_type 0xFF)
      ++ " " ++ format_02X (Z.land communication_type 0xFF) in
  match node_identification_number with
  | Some n =>
      request ++ " " ++ format_02X (Z.shiftr (Z.land n 0xFF00) 8)
        ++ " " ++ decimal_text (Z.land n 0xFF)
  | None => request
  end.

Definition tester_present (zero_sub_functions : Z) : string :=
  format_02X Sid.TP ++ " " ++ format_02X (Z.land zero_sub_functions 0xFF).

Definition access_timing_parameter (timing_parameter_access_type : Z)
           (timing_parameter_request_record : option (list Z)) : string :=
  let request :=
    format_02X Sid.ATP ++ " "
      ++ format_02X (Z.land timing_parameter_access_type 0xFF) in
  match timing_parameter_request_record with
  | Some record => request ++ " " ++ join_masked record
  | None => request
  end.

Definition secured_data_transmission (security_data_request_record : list Z)
  : string :=
  format_02X Sid.SDT ++ " " ++ join_masked security_data_request_record.

Definition control_dtc_setting (dtc_setting_type : Z)
           (dtc_setting_control_option_record : option (list Z)) : string :=
  let request :=
    format_02X Sid.CDTCS ++ " " ++ format_02X (Z.land dtc_setting_type 0xFF) in
  match dtc_setting_control_option_record with
  | Some record => request ++ " " ++ join_masked record
  | None => request
  end.

Definition response_on_event (event_type event_window_time : Z)
           (event_type_record service_to_respond_to_record : option (list Z))
  : string :=
  let request :=
    format_02X Sid.ROE ++ " " ++ format_02X (Z.land event_type 0xFF)
      ++ " " ++ format_02X (Z.land event_window_time 0xFF) in
  let request :=
    match event_type_record with
    | Some record => request ++ " " ++ join_masked record
    | None => request
    end in
  match service_to_respond_to_record with
  | Some record => request ++ " " ++ join_masked record
  | None => request
  end.

Definition link_control (link_control_type : Z)
           (link_control_mode_identifier link_record : option Z)
  : result string :=
  let request :=
    format_02X Sid.LC ++ " " ++ format_02X (Z.land link_control_type 0xFF) in
  request <-
    match link_control_mode_identifier with
    | Some m => text <- str m ;; Ok (request ++ " " ++ text)
    | None => Ok request
    end ;;
  match link_record with
  | Some r =>
      Ok (request ++ " " ++ format_02X (Z.shiftr (Z.land r 0xFF0000) 16)
            ++ " " ++ format_02X (Z.shiftr (Z.land r 0xFF00) 8)
            ++ " " ++ decimal_text (Z.land r 0xFF))
  | None => Ok request
  end.

(* Data transmission *)

Definition read_data_by_identifier (data_identifier : list Z) : string :=
  format_02X Sid.RDBI ++ " "
    ++ join_space
         (map (fun value =>
                 format_02X (Z.shiftr (Z.land value 0xFF00) 8)
                   ++ " " ++ decimal_text (Z.land value 0xFF))
              data_identifier).

Definition read_memory_by_address
           (address_and_length_format_identifier memory_address memory_size : Z)
  : string :=
  let request :=
    format_02X Sid.RMBA ++ " "
      ++ decimal_text (Z.land address_and_length_format_identifier 0xFF) in
  let length_of_memory_address :=
    Z.land address_and_length_format_identifier 0xF in
  let length_of_memory_size :=
    Z.shiftr (Z.land address_and_length_format_identifier 0xF0) 4 in
  let request :=
    request ++ " " ++ join_sized memory_address length_of_memory_address in
  request ++ " " ++ join_sized memory_size length_of_memory_size.

Definition read_scaling_data_by_identifier (data_identifier : Z) : string :=
  format_02X Sid.RSDBI ++ " "
    ++ format_02X (Z.shiftr (Z.land data_identifier 0xFF00) 8)
    ++ " " ++ format_02X (Z.land data_identifier 0xFF).

Definition read_data_by_periodic_identifier (transmission_mode : Z)
           (periodic_data_identifier : list Z) : string :=
  let request :=
    format_02X Sid.RDBPI ++ " " ++ format_02X transmission_mode in
  request ++ " " ++ join_masked periodic_data_identifier.

(** [supporting_params : Union[list[list[int]], int]] *)
Inductive supporting : Type :=
| ParamList (l : list (list Z))
| ParamInt (z : Z).

Definition supporting_value (p : supporting) : value :=
  match p with
  | ParamList _ => VList
  | ParamInt z => VInt z
  end.

(** [for params in supporting_params]: an int is not iterable. *)
Definition supporting_iter (p : supporting) : result (list (list Z)) :=
  match p with
  | ParamList l => Ok l
  | ParamInt _ => Raise TypeError
  end.

(** Loop body of the branch [definition_type == 0x01]. *)
Definition define_by_identifier_body (request : string) (params : list Z)
  : result string :=
  p0 <- index params 0 ;;
  let dynamically_defined_data_identifier :=
    format_02X (Z.land (Z.shiftr p0 8) 0xFF) ++ " " ++ format_02X (Z.land p0 0xFF) in
  p1 <- index params 1 ;;
  let source_data_identifier :=
    format_02X (Z.land (Z.shiftr p1 8) 0xFF) ++ " " ++ format_02X (Z.land p1 0xFF) in
  p2 <- index params 2 ;;
  let position_in_source_data_record := format_02X (Z.land p2 0xFF) in
  p3 <- index params 3 ;;
  let memory_size := format_02X (Z.land p3 0xFF) in
  Ok (request ++ " " ++ dynamically_defined_data_identifier
        ++ " " ++ source_data_identifier
        ++ " " ++ position_in_source_data_record
        ++ " " ++ memory_size).

(** Loop body of the branch [definition_type == 0x02].  The source rebinds
    [address_and_length_format_identifier] to the formatted string and then
    applies [&] to that string. *)
Definition define_by_memory_address_body (request : string) (params : list Z)
  : result string :=
  p0 <- index params 0 ;;
  let dynamically_defined_data_identifier :=
    format_02X (Z.land (Z.shiftr p0 8) 0xFF) ++ " " ++ format_02X (Z.land p0 0xFF) in
  p1 <- index params 1 ;;
  let address_and_length_format_identifier := format_02X (Z.land p1 0xFF) in
  length_of_memory_address <-
    and_ (VStr address_and_length_format_identifier) (VInt 0xF) ;;
  high <- and_ (VStr address_and_length_format_identifier) (VInt 0xF0) ;;
  length_of_memory_size <- rshift (VInt high) (VInt 4) ;;
  address_bytes <-
    map_m (fun i => p2 <- index params 2 ;;
                    Ok (format_02X (Z.land (Z.shiftr p2 (i * 8)) 0xFF)))
          (reversed_range length_of_memory_address) ;;
  let memory_address := join_space address_bytes in
  size_bytes <-
    map_m (fun i => p3 <- index params 3 ;;
                    Ok (format_02X (Z.land (Z.shiftr p3 (i * 8)) 0xFF)))
          (reversed_range length_of_memory_size) ;;
  let memory_size := join_space size_bytes in
  Ok (request ++ " " ++ dynamically_defined_data_identifier
        ++ " " ++ address_and_length_format_identifier
        ++ " " ++ memory_address
        ++ " " ++ memory_size).

(** The text handed to [print] in the last branch; building it formats
    [definition_type] in decimal, which can raise. *)
Definition invalid_definition_type_message (definition_type : Z)
  : result string :=
  text <- str definition_type ;;
  Ok ("invalid definition_type " ++ text
        ++ ". possible values -> 0 to 3. request sent without supporting_params").

(** Returns the lines printed on standard output and the outcome. *)
Definition dynamically_define_data_identifier (definition_type : Z)
           (supporting_params : supporting) : list string * result string :=
  let request :=
    format_02X Sid.DDDI ++ " " ++ format_02X definition_type in
  if definition_type =? 0x01 then
    ([], l <- supporting_iter supporting_params ;;
         for_each define_by_identifier_body l request)
  else if definition_type =? 0x02 then
    ([], l <- supporting_iter supporting_params ;;
         for_each define_by_memory_address_body l request)
  else if definition_type =? 0x03 then
    ([], hi <- rshift (supporting_value supporting_params) (VInt 8) ;;
         lo <- and_ (supporting_value supporting_params) (VInt 0xFF) ;;
         let dynamically_defined_data_identifier :=
           format_02X (Z.land hi 0xFF) ++ " " ++ format_02X lo in
         Ok (request ++ " " ++ dynamically_defined_data_identifier))
  else
    match invalid_definition_type_message definition_type with
    | Ok line => ([line], Ok request)
    | Raise e => ([], Raise e)
    end.

Definition write_data_by_identifier (data_identifier : Z) (data_record : list Z)
  : result string :=
  data_identifier <- convert_int_to_str_of_bytes data_identifier ;;
  let data_record := join_masked data_record in
  Ok (format_02X Sid.WDBI ++ " " ++ data_identifier ++ " " ++ data_record).

Definition write_memory_by_address
           (address_and_length_format_identifier memory_address memory_size : Z)
           (data_record : list Z) : result string :=
  address_and_length_format_identifier <-
    convert_int_to_str_of_bytes address_and_length_format_identifier ;;
  memory_address <- convert_int_to_str_of_bytes memory_address ;;
  memory_size <- convert_int_to_str_of_bytes memory_size ;;
  let data_record := join_masked data_record in
  Ok (format_02X Sid.WMBA ++ " " ++ address_and_length_format_identifier
        ++ " " ++ memory_address ++ " " ++ memory_size ++ " " ++ data_record).

(* Stored data transmission *)

Definition clear_diagnostic_information (group_of_dtc : Z) : result string :=
  group_of_dtc <- convert_int_to_str_of_bytes group_of_dtc ;;
  Ok (format_02X Sid.CDTCI ++ " " ++ group_of_dtc).

Definition read_dtc_information (report_type : Z)
           (remaining_arguments_list : list Z) : result string :=
  report_type <- convert_int_to_str_of_bytes report_type ;;
  let remaining_arguments_list := join_masked remaining_arguments_list in
  Ok (format_02X Sid.RDTCI ++ " " ++ report_type ++ " " ++ remaining_arguments_list).

(* Input Output control *)

Definition input_output_control_by_identifier (data_identifier : Z)
           (control_option_record : list Z)
           (control_enable_mask_record : option (list Z)) : result string :=
  data_identifier <- convert_int_to_str_of_bytes data_identifier ;;
  let control_option_record := join_masked control_option_record in
  let control_enable_mask_record :=
    match control_enable_mask_record with
    | None => ""
    | Some record => join_masked record
    end in
  Ok (format_02X Sid.IOCBI ++ " " ++ data_identifier
        ++ " " ++ control_option_record ++ " " ++ control_enable_mask_record).

(* Remote activation of routine *)

Definition routine_control (routine_control_type routine_identifier : Z)
           (routine_control_option_record : option (list Z)) : result string :=
  routine_control_type <- convert_int_to_str_of_bytes routine_control_type ;;
  routine_identifier <- convert_int_to_str_of_bytes routine_identifier ;;
  let routine_control_option_record :=
    match routine_control_option_record with
    | None => ""
    | Some record => join_masked record
    end in
  Ok (format_02X Sid.RC ++ " " ++ routine_control_type
        ++ " " ++ routine_identifier ++ " " ++ routine_control_option_record).

(* Upload download *)

Definition request_download
           (data_format_identifier address_and_length_format_identifier
            memory_address memory_size : Z) : result string :=
  let data_format_identifier := format_02X (Z.land data_format_identifier 0xFF) in
  let address_and_length_format_identifier :=
    format_02X (Z.land address_and_length_format_identifier 0xFF) in
  memory_address <- convert_int_to_str_of_bytes memory_address ;;
  memory_size <- convert_int_to_str_of_bytes memory_size ;;
  Ok (format_02X Sid.RD ++ " " ++ data_format_identifier
        ++ " " ++ address_and_length_format_identifier
        ++ " " ++ memory_address ++ " " ++ memory_size).

Definition request_upload
           (data_format_identifier address_and_length_format_identifier
            memory_address memory_size : Z) : result string :=
  data_format_identifier <- convert_int_to_str_of_bytes data_format_identifier ;;
  address_and_length_format_identifier <-
    convert_int_to_str_of_bytes address_and_length_format_identifier ;;
  memory_address <- convert_int_to_str_of_bytes memory_address ;;
  memory_size <- convert_int_to_str_of_bytes memory_size ;;
  Ok (format_02X Sid.RU ++ " " ++ data_format_identifier
        ++ " " ++ address_and_length_format_identifier
        ++ " " ++ memory_address ++ " " ++ memory_size).

Definition transfer_data (block_sequence_counter : Z)
           (transfer_request_parameter_record : list Z) : result string :=
  block_sequence_counter <- convert_int_to_str_of_bytes block_sequence_counter ;;
  let transfer_request_parameter_record :=
    join_masked transfer_request_parameter_record in
  Ok (format_02X Sid.TD ++ " " ++ block_sequence_counter
        ++ " " ++ transfer_request_parameter_record).

Definition request_transfer_exit
           (transfer_request_parameter_record : option (list Z)) : string :=
  match transfer_request_parameter_record with
  | None => format_02X Sid.RTE
  | Some record =>
      let transfer_request_parameter_record := join_masked record in
      format_02X Sid.TD ++ " " ++ transfer_request_parameter_record
  end.

Definition request_file_transfer
           (mode_of_operation file_path_and_name_length : Z)
           (file_path_and_name : list Z)
           (data_format_identifier file_size_parameter_length : option Z)
           (file_size_uncompressed file_size_compressed : option (list Z))
  : result string :=
  mode_of_operation <- convert_int_to_str_of_bytes mode_of_operation ;;
  file_path_and_name_length <-
    convert_int_to_str_of_bytes file_path_and_name_length ;;
  let file_path_and_name := join_masked file_path_and_name in
  dfi <- and_ (of_opt_int data_format_identifier) (VInt 0xFF) ;;
  let data_format_identifier := format_02X dfi in
  fspl <- and_ (of_opt_int file_size_parameter_length) (VInt 0xFF) ;;
  let file_size_parameter_length := format_02X fspl in
  uncompressed <- iter file_size_uncompressed ;;
  let file_size_uncompressed := join_masked uncompressed in
  compressed <- iter file_size_compressed ;;
  let file_size_compressed := join_masked compressed in
  Ok (format_02X Sid.RFT ++ " " ++ mode_of_operation
        ++ " " ++ file_path_and_name_length
        ++ " " ++ file_path_and_name
        ++ " " ++ data_format_identifier
        ++ " " ++ file_size_parameter_length
        ++ " " ++ file_size_uncompressed
        ++ " " ++ file_size_compressed).

End Services.

(** ** Vocabulary of the statements *)

Module Wire.
Import Py.

(** A byte as two upper-case hexadecimal digits. *)
Definition hex_byte (b : Z) : string :=
  String (digit_char (b / 16)) (String (digit_char (b mod 16)) "").

Definition is_byte (b : Z) : Prop := 0 <= b < 256.

(** The number a digit sequence stands for, most significant digit first. *)
Definition digits_value (base : Z) (ds : list Z) : Z :=
  fold_left (fun acc d => acc * base + d) ds 0.

(** The number a big-endian byte sequence stands for. *)
Definition be_value (bytes : list Z) : Z :=
  fold_left (fun acc b => acc * 256 + b) bytes 0.

Definition is_hex_digit (c : ascii) : bool :=
  let n := nat_of_ascii c in
  ((48 <=? n) && (n <=? 57) || (65 <=? n) && (n <=? 70))%nat.

(** Two-digit upper-case hexadecimal tokens separated by single spaces:
    no other token shape, no empty token, no space at either end. *)
Fixpoint well_formed_request (s : string) : bool :=
  match s with
  | String a (String b rest) =>
      is_hex_digit a && is_hex_digit b &&
      match rest with
      | EmptyString => true
      | String sep rest' => Ascii.eqb sep " " && well_formed_request rest'
      end
  | _ => false
  end.

(** The bytes the source takes from [v] for a field of [n] bytes. *)
Definition sized_bytes (v n : Z) : list Z :=
  map (fun i => Z.land (Z.shiftr v (i * 8)) 0xFF) (reversed_range n).

(** The two bytes of a data identifier, high byte first. *)
Definition did_bytes (d : Z) : list Z := [(d / 256) mod 256; d mod 256].

Definition hex_digit_value (c : ascii) : option Z :=
  let n := Z.of_nat (nat_of_ascii c) in
  if (48 <=? n) && (n <=? 57) then Some (n - 48)
  else if (65 <=? n) && (n <=? 70) then Some (n - 55)
  else None.

(** What a receiver reads from a request: the bytes of its two-digit
    upper-case hexadecimal tokens, or nothing when the text is not such
    tokens separated by single spaces. *)
Fixpoint parse_request (s : string) : option (list Z) :=
  match s with
  | String a (String b rest) =>
      match hex_digit_value a, hex_digit_value b with
      | Some hi, Some lo =>
          match rest with
          | EmptyString => Some [hi * 16 + lo]
          | String sep rest' =>
              if Ascii.eqb sep " "
              then option_map (cons (hi * 16 + lo)) (parse_request rest')
              else None
          end
      | _, _ => None
      end
  | _ => None
  end.

(** The bytes of an optional record: its elements reduced to eight bits. *)
Definition record_bytes (record : option (list Z)) : list Z :=
  match record with
  | Some l => map (fun v => v mod 256) l
  | None => []
  end.

(** The outcome is a value or an OverflowError. *)
Definition only_overflow {A : Type} (r : result A) : Prop :=
  match r with
  | Ok _ => True
  | Raise e => e = OverflowError
  end.

(** The text holds no space, so it is a single token. *)
Fixpoint no_space (s : string) : bool :=
  match s with
  | EmptyString => true
  | String c rest => negb (Ascii.eqb c " ") && no_space rest
  end.

(** What a receiver reads from the outcome of an operation. *)
Definition read_back (r : result string) : result (option (list Z)) :=
  match r with
  | Ok s => Ok (parse_request s)
  | Raise e => Raise e
  end.

(** The outcome, when it is a request, cannot be read back. *)
Definition unreadable (r : result string) : Prop :=
  match r with
  | Ok s => parse_request s = None
  | Raise _ => True
  end.

(** The byte a receiver reads from the two decimal digits of [k]. *)
Definition decimal_read_as_hex (k : Z) : Z := 16 * (k / 10) + k mod 10.

(** The bit lengths at which [round(bit_length / 8)] bytes are enough. *)
Definition length_rounds_up (bits : Z) : bool :=
  let r := bits mod 8 in
  (r =? 0) || (5 <=? r) || ((r =? 4) && Z.odd (bits / 8)).

(** The bytes the source takes from the four fields of a
    define-by-identifier tuple. *)
Definition define_by_identifier_bytes (params : list Z) : list Z :=
  did_bytes (nth 0 params 0) ++ did_bytes (nth 1 params 0)
    ++ [nth 2 params 0 mod 256; nth 3 params 0 mod 256].

End Wire.

(** ** Facts about the builtins *)

Section Builtins.
Import Py Wire.

(** The fuel of [digits] is enough: the digits denote the number. *)
Lemma digits_le_value (base : Z) (fuel : nat) (n : Z) :
  1 < base -> 0 <= n < base ^ Z.of_nat fuel ->
  fold_right (fun d acc => acc * base + d) 0 (digits_le fuel base n) = n
  /\ Forall (fun d => 0 <= d < base) (digits_le fuel base n).
Proof.
  intros Hbase. revert n.
  induction fuel as [|fuel IH]; intros n Hn.
  - cbn in *. split; [lia | constructor].
  - cbn [digits_le]. destruct (Z.ltb_spec n base) as [Hlt|Hge].
    + cbn. split; [lia | repeat constructor; lia].
    + rewrite Nat2Z.inj_succ, Z.pow_succ_r in Hn by lia.
      destruct (IH (n / base)) as [Hval Hall].
      { split; [apply Z.div_pos; lia | apply Z.div_lt_upper_bound; lia]. }
      cbn [fold_right]. rewrite Hval. split.
      * pose proof (Z.div_mod n base ltac:(lia)). lia.
      * constructor; [apply Z.mod_pos_bound; lia | exact Hall].
Qed.

Lemma digits_denote (base n : Z) :
  1 < base -> 0 <= n ->
  digits_value base (digits base n) = n
  /\ Forall (fun d => 0 <= d < base) (digits base n).
Proof.
  intros Hbase Hn. unfold digits_value, digits.
  destruct (digits_le_value base (S (Z.to_nat (Z.log2 n))) n Hbase) as [Hval Hall].
  { split; [exact Hn|].
    rewrite Nat2Z.inj_succ, Z2Nat.id by apply Z.log2_nonneg.
    destruct (Z.eq_dec n 0) as [->|Hne].
    - apply Z.pow_pos_nonneg; cbn; lia.
    - apply Z.lt_le_trans with (2 ^ Z.succ (Z.log2 n)).
      + apply Z.log2_spec. lia.
      + apply Z.pow_le_mono_l. lia. }
  split.
  - rewrite <- fold_left_rev_right, rev_involutive. exact Hval.
  - apply Forall_rev. exact Hall.
Qed.

Lemma format_02X_byte (b : Z) : 0 <= b < 256 -> format_02X b = hex_byte b.
Proof.
  intros Hb.
  assert (Hall : forallb (fun n => String.eqb (format_02X (Z.of_nat n))
                                              (hex_byte (Z.of_nat n)))
                         (seq 0 256) = true) by (vm_compute; reflexivity).
  rewrite forallb_forall in Hall.
  specialize (Hall (Z.to_nat b)).
  rewrite Z2Nat.id in Hall by lia.
  apply String.eqb_eq, Hall, in_seq. lia.
Qed.

Lemma land_FF (v : Z) : Z.land v 0xFF = v mod 256.
Proof. change 0xFF with (Z.ones 8). now rewrite Z.land_ones by lia. Qed.

Lemma land_FF_byte (v : Z) : is_byte (Z.land v 0xFF).
Proof. rewrite land_FF. unfold is_byte. apply Z.mod_pos_bound. lia. Qed.

Lemma format_02X_masked (v : Z) :
  format_02X (Z.land v 0xFF) = hex_byte (v mod 256).
Proof.
  rewrite format_02X_byte by apply land_FF_byte. now rewrite land_FF.
Qed.

Lemma reversed_range_length (n : Z) :
  List.length (reversed_range n) = Z.to_nat n.
Proof.
  unfold reversed_range. now rewrite length_rev, length_map, length_seq.
Qed.

Lemma reversed_range_succ (k : nat) :
  reversed_range (Z.of_nat (S k)) = Z.of_nat k :: reversed_range (Z.of_nat k).
Proof.
  unfold reversed_range. rewrite !Nat2Z.id, seq_S, map_app, rev_app_distr.
  reflexivity.
Qed.

End Builtins.

(** ** Fixed-width fields *)

Section SizedFields.
Import Py Wire Services.

Lemma be_value_from (bytes : list Z) (acc : Z) :
  fold_left (fun a b => a * 256 + b) bytes acc
  = acc * 256 ^ Z.of_nat (List.length bytes) + be_value bytes.
Proof.
  unfold be_value. revert acc.
  induction bytes as [|b bytes IH]; intros acc.
  - simpl. lia.
  - cbn [fold_left List.length]. rewrite IH, (IH (0 * 256 + b)).
    rewrite Nat2Z.inj_succ, Z.pow_succ_r by lia. ring.
Qed.

Lemma be_value_cons (b : Z) (bytes : list Z) :
  be_value (b :: bytes) = b * 256 ^ Z.of_nat (List.length bytes) + be_value bytes.
Proof.
  unfold be_value at 1. cbn [fold_left]. rewrite be_value_from. ring.
Qed.

Lemma sized_bytes_succ (v : Z) (k : nat) :
  sized_bytes v (Z.of_nat (S k))
  = Z.land (Z.shiftr v (Z.of_nat k * 8)) 0xFF :: sized_bytes v (Z.of_nat k).
Proof. unfold sized_bytes. now rewrite reversed_range_succ. Qed.

Lemma sized_bytes_length (v n : Z) :
  List.length (sized_bytes v n) = Z.to_nat n.
Proof. unfold sized_bytes. now rewrite length_map, reversed_range_length. Qed.

Lemma sized_bytes_are_bytes (v n : Z) : Forall is_byte (sized_bytes v n).
Proof.
  unfold sized_bytes. apply Forall_forall. intros b Hb.
  apply in_map_iff in Hb. destruct Hb as [i [<- _]]. apply land_FF_byte.
Qed.

Lemma sized_bytes_value_nat (v : Z) (k : nat) :
  be_value (sized_bytes v (Z.of_nat k)) = v mod 256 ^ Z.of_nat k.
Proof.
  induction k as [|k IH].
  - cbn. now rewrite Z.mod_1_r.
  - rewrite sized_bytes_succ, be_value_cons, sized_bytes_length, IH.
    rewrite !Nat2Z.id, land_FF, Z.shiftr_div_pow2 by lia.
    replace (2 ^ (Z.of_nat k * 8)) with (256 ^ Z.of_nat k)
      by (rewrite Z.mul_comm, Z.pow_mul_r by lia; reflexivity).
    rewrite Nat2Z.inj_succ, Z.pow_succ_r, (Z.mul_comm 256) by lia.
    rewrite Z.rem_mul_r by lia. ring.
Qed.

(** A field of [n] bytes carries [v] modulo [256 ^ n], most significant
    byte first. *)
Lemma sized_bytes_value (v n : Z) :
  0 <= n -> be_value (sized_bytes v n) = v mod 256 ^ n.
Proof.
  intros Hn. rewrite <- (Z2Nat.id n) by lia. apply sized_bytes_value_nat.
Qed.

Lemma join_sized_bytes (v n : Z) :
  join_sized v n = join_space (map hex_byte (sized_bytes v n)).
Proof.
  unfold join_sized, sized_bytes. rewrite map_map. f_equal.
  apply map_ext. intros i. apply format_02X_byte, land_FF_byte.
Qed.

Lemma join_masked_bytes (l : list Z) :
  join_masked l = join_space (map (fun v => hex_byte (v mod 256)) l).
Proof.
  unfold join_masked. f_equal. apply map_ext. intros v.
  apply format_02X_masked.
Qed.

Lemma low_nibble_range (f : Z) : 0 <= Z.land f 0xF < 16.
Proof.
  change 0xF with (Z.ones 4). rewrite Z.land_ones by lia.
  apply Z.mod_pos_bound. lia.
Qed.

Lemma high_nibble_range (f : Z) : 0 <= Z.shiftr (Z.land f 0xF0) 4 < 16.
Proof.
  rewrite Z.shiftr_land. change (Z.shiftr 0xF0 4) with 0xF.
  apply low_nibble_range.
Qed.

End SizedFields.

(** ** ReadMemoryByAddress *)

Section ReadMemoryByAddress.
Import Py Wire Services.

Lemma append_assoc3 (a b c : string) : ((a ++ b) ++ c = a ++ (b ++ c))%string.
Proof. induction a as [|ch a IH]; simpl; [reflexivity | now rewrite IH]. Qed.

(** C1, as stated, fails on its own example: the size field of
    [read_memory_by_address(0x14, 0x1000, 0x0100)] is one byte wide, so the
    request is not "23 14 00 00 10 00 01 00". *)
Lemma read_memory_by_address_example_differs :
  read_memory_by_address 0x14 0x1000 0x0100 <> "23 14 00 00 10 00 01 00"
  /\ String.length (read_memory_by_address 0x14 0x1000 0x0100) = 20%nat
  /\ String.length "23 14 00 00 10 00 01 00" = 23%nat.
Proof.
  split; [vm_compute; discriminate|].
  split; vm_compute; reflexivity.
Qed.

(** C1 (amended): the low nibble of the format identifier is the number of
    address bytes and the high nibble the number of size bytes; after the
    SID "23" and the format token, the address and the size are each written
    as exactly that many two-digit hexadecimal bytes, most significant
    first, carrying the value modulo 256^width.  For (0x14, 0x1000, 0x0100)
    that is four address bytes "00 00 10 00" and one size byte "00". *)
Theorem read_memory_by_address_fixed_width :
  (forall fmt addr size : Z,
      exists (tok : string) (abytes sbytes : list Z),
        read_memory_by_address fmt addr size
        = "23 " ++ tok ++ " " ++ join_space (map hex_byte abytes)
            ++ " " ++ join_space (map hex_byte sbytes)
        /\ Z.of_nat (List.length abytes) = Z.land fmt 0xF
        /\ Z.of_nat (List.length sbytes) = Z.shiftr (Z.land fmt 0xF0) 4
        /\ Forall is_byte abytes /\ Forall is_byte sbytes
        /\ be_value abytes = addr mod 256 ^ Z.land fmt 0xF
        /\ be_value sbytes = size mod 256 ^ Z.shiftr (Z.land fmt 0xF0) 4)
  /\ (exists tok : string,
         read_memory_by_address 0x14 0x1000 0x0100
         = "23 " ++ tok ++ " 00 00 10 00" ++ " 00").
Proof.
  split.
  - intros fmt addr size.
    pose proof (low_nibble_range fmt) as Ha.
    pose proof (high_nibble_range fmt) as Hs.
    exists (decimal_text (Z.land fmt 0xFF)),
      (sized_bytes addr (Z.land fmt 0xF)),
      (sized_bytes size (Z.shiftr (Z.land fmt 0xF0) 4)).
    repeat split.
    + unfold read_memory_by_address.
      rewrite !join_sized_bytes, !append_assoc3. reflexivity.
    + rewrite sized_bytes_length. lia.
    + rewrite sized_bytes_length. lia.
    + apply sized_bytes_are_bytes.
    + apply sized_bytes_are_bytes.
    + apply sized_bytes_value. lia.
    + apply sized_bytes_value. lia.
  - exists "20". reflexivity.
Qed.

End ReadMemoryByAddress.

(** ** The generic big-endian helper *)

Section ConvertIntToStrOfBytes.
Import Py Wire Services.

Lemma round_div8_nonneg (b : Z) : 0 <= b -> 0 <= round_div8 b.
Proof.
  intros Hb. unfold round_div8.
  assert (0 <= b / 8) by (apply Z.div_pos; lia).
  destruct (b mod 8 <? 4), (4 <? b mod 8), (Z.even (b / 8)); lia.
Qed.

(** [round] never exceeds the ceiling of the quotient. *)
Lemma round_div8_le_ceil (b m : Z) : b <= 8 * m -> round_div8 b <= m.
Proof.
  intros Hb. unfold round_div8.
  pose proof (Z.div_mod b 8 ltac:(lia)) as Hdm.
  pose proof (Z.mod_pos_bound b 8 ltac:(lia)) as Hr.
  destruct (Z.ltb_spec (b mod 8) 4), (Z.ltb_spec 4 (b mod 8)),
    (Z.even (b / 8)); lia.
Qed.

Lemma bit_length_nonneg (v : Z) : 0 <= bit_length v.
Proof.
  unfold bit_length. destruct (v =? 0); [lia|].
  pose proof (Z.log2_nonneg (Z.abs v)). lia.
Qed.

Lemma be_value_bound (bytes : list Z) :
  Forall is_byte bytes -> 0 <= be_value bytes < 256 ^ Z.of_nat (List.length bytes).
Proof.
  induction 1 as [|b bytes Hb _ IH].
  - cbn. lia.
  - rewrite be_value_cons. cbn [List.length].
    rewrite Nat2Z.inj_succ, Z.pow_succ_r by lia.
    unfold is_byte in Hb.
    assert (0 < 256 ^ Z.of_nat (List.length bytes)) by (apply Z.pow_pos_nonneg; lia).
    nia.
Qed.

(** Whenever the helper returns, it returns the shortest big-endian byte
    sequence of its (non-negative) argument. *)
Lemma convert_int_to_str_of_bytes_ok_minimal (v : Z) (s : string) :
  convert_int_to_str_of_bytes v = Ok s ->
  0 <= v /\
  exists bytes : list Z,
    s = join_space (map hex_byte bytes)
    /\ Forall is_byte bytes
    /\ be_value bytes = v
    /\ forall bytes' : list Z,
        Forall is_byte bytes' -> be_value bytes' = v ->
        (List.length bytes <= List.length bytes')%nat.
Proof.
  unfold convert_int_to_str_of_bytes, to_bytes.
  set (n := round_div8 (bit_length v)).
  assert (Hn : 0 <= n) by apply round_div8_nonneg, bit_length_nonneg.
  destruct (Z.ltb_spec v 0) as [|Hv]; [discriminate|].
  destruct (Z.ltb_spec v (256 ^ n)) as [Hfit|]; [|discriminate].
  cbn [bind]. intros [= <-]. split; [exact Hv|].
  exists (sized_bytes v n). repeat split.
  - unfold sized_bytes. rewrite !map_map. f_equal. apply map_ext.
    intros i. apply format_02X_byte, land_FF_byte.
  - apply sized_bytes_are_bytes.
  - rewrite sized_bytes_value by exact Hn. apply Z.mod_small. lia.
  - intros bytes' Hbytes' Hval. rewrite sized_bytes_length.
    apply be_value_bound in Hbytes'. rewrite Hval in Hbytes'.
    set (m := Z.of_nat (List.length bytes')) in *.
    assert (n <= m); [|lia].
    apply round_div8_le_ceil. unfold bit_length.
    destruct (Z.eqb_spec v 0) as [|Hne]; [lia|].
    rewrite Z.abs_eq by lia.
    assert (Z.log2 v < 8 * m); [|lia].
    apply Z.log2_lt_pow2; [lia|].
    rewrite Z.pow_mul_r by lia. exact (proj2 Hbytes').
Qed.

(** Every value from 1 to 15 makes the helper raise. *)
Lemma convert_int_to_str_of_bytes_nibble_raises (v : Z) :
  0 < v < 16 -> convert_int_to_str_of_bytes v = Raise OverflowError.
Proof.
  intros Hv. unfold convert_int_to_str_of_bytes, to_bytes.
  assert (Hbl : 1 <= bit_length v <= 4).
  { unfold bit_length. destruct (Z.eqb_spec v 0); [lia|].
    rewrite Z.abs_eq by lia.
    pose proof (Z.log2_nonneg v).
    assert (Z.log2 v < 4) by (apply Z.log2_lt_pow2; [lia | change (2 ^ 4) with 16; lia]).
    lia. }
  assert (Hr : round_div8 (bit_length v) = 0).
  { unfold round_div8.
    rewrite (Z.div_small (bit_length v) 8), (Z.mod_small (bit_length v) 8) by lia.
    destruct (Z.ltb_spec (bit_length v) 4); [reflexivity|].
    destruct (Z.ltb_spec 4 (bit_length v)); [lia | reflexivity]. }
  rewrite Hr.
  destruct (Z.ltb_spec v 0); [lia|].
  destruct (Z.ltb_spec v (256 ^ 0)) as [Hlt|]; [|reflexivity].
  change (256 ^ 0) with 1 in Hlt. lia.
Qed.

(** C2: the helper is not total on non-negative integers.
    [convert_int_to_str_of_bytes(1)] computes a length of
    [round(1 / 8) = 0] bytes and [to_bytes] raises OverflowError; the same
    happens at 0x100, and for the catalog's own [start_routine] sub-function
    passed to [routine_control]. *)
Theorem convert_int_to_str_of_bytes_raises_at_1 :
  convert_int_to_str_of_bytes 1 = Raise OverflowError
  /\ convert_int_to_str_of_bytes 0x100 = Raise OverflowError
  /\ routine_control Sfid.start_routine 0xFF00 None = Raise OverflowError.
Proof. repeat split; vm_compute; reflexivity. Qed.

End ConvertIntToStrOfBytes.

(** ** Shape of the requests *)

Section RequestShape.
Import Py Wire Services.

Lemma join_space_app (l1 l2 : list string) :
  l1 <> [] -> l2 <> [] ->
  join_space (l1 ++ l2) = join_space l1 ++ " " ++ join_space l2.
Proof.
  intros H1 H2. induction l1 as [|s l1 IH]; [congruence|].
  destruct l1 as [|s' l1].
  - destruct l2; [congruence | reflexivity].
  - change (join_space ((s :: s' :: l1) ++ l2))
      with (s ++ " " ++ join_space ((s' :: l1) ++ l2)).
    rewrite IH by discriminate.
    change (join_space (s :: s' :: l1)) with (s ++ " " ++ join_space (s' :: l1)).
    now rewrite !append_assoc3.
Qed.

(** Identifiers are written in input order, one space between them. *)
Lemma read_data_by_identifier_app (ids1 ids2 : list Z) :
  ids1 <> [] -> ids2 <> [] ->
  exists body1 body2 : string,
    read_data_by_identifier ids1 = "22 " ++ body1
    /\ read_data_by_identifier ids2 = "22 " ++ body2
    /\ read_data_by_identifier (ids1 ++ ids2) = "22 " ++ body1 ++ " " ++ body2.
Proof.
  intros H1 H2. unfold read_data_by_identifier.
  eexists _, _. split; [reflexivity|]. split; [reflexivity|].
  rewrite map_app, join_space_app; [reflexivity| |];
    intros Hnil; apply map_eq_nil in Hnil; contradiction.
Qed.

(** The operations that do mask a one-byte parameter. *)
Lemma tester_present_masked (v : Z) :
  tester_present v = "3E " ++ hex_byte (v mod 256).
Proof. unfold tester_present. now rewrite format_02X_masked. Qed.

Lemma security_access_masked (v : Z) (record : list Z) :
  security_access v None = "27 " ++ hex_byte (v mod 256)
  /\ security_access v (Some record)
     = "27 " ++ hex_byte (v mod 256) ++ " "
         ++ join_space (map (fun x => hex_byte (x mod 256)) record).
Proof.
  unfold security_access.
  rewrite format_02X_masked, join_masked_bytes, !append_assoc3.
  split; reflexivity.
Qed.

(** C3: the output format is not kept by every operation.
    [read_data_by_identifier([0xF190])] writes the low byte in decimal
    ("144"), and [routine_control(0x31, 0xFF00)] without an option record
    ends in a space; neither string is a sequence of two-digit hexadecimal
    tokens separated by single spaces ("22 F1 90" would be). *)
Theorem request_format_not_kept :
  read_data_by_identifier [0xF190] = "22 F1 144"
  /\ well_formed_request (read_data_by_identifier [0xF190]) = false
  /\ routine_control 0x31 0xFF00 None = Ok "31 31 FF 00 "
  /\ well_formed_request "31 31 FF 00 " = false
  /\ well_formed_request "22 F1 90" = true.
Proof. repeat split; vm_compute; reflexivity. Qed.

(** C4: a call that leaves out the parameters declared optional does not
    always return a string.  [request_file_transfer] with its three required
    arguments only raises for every choice of them: TypeError from
    [None & 0xFF] when both length conversions succeed, OverflowError from
    the conversions otherwise. *)
Theorem request_file_transfer_required_only_raises :
  (forall (mode len : Z) (path : list Z),
      is_ok (request_file_transfer mode len path None None None None) = false)
  /\ request_file_transfer 0x10 0x10 [0x41] None None None None = Raise TypeError
  /\ request_file_transfer 0x01 0x10 [0x41] None None None None
     = Raise OverflowError.
Proof.
  split; [|split; vm_compute; reflexivity].
  intros mode len path. unfold request_file_transfer.
  destruct (convert_int_to_str_of_bytes mode); [|reflexivity].
  destruct (convert_int_to_str_of_bytes len); reflexivity.
Qed.

(** C5: one-byte parameters are not masked everywhere.
    [diagnostic_session_control(0x101)] returns "10 101" where masking gives
    "10 01"; [ecu_reset], the transmission mode of
    [read_data_by_periodic_identifier] and the definition type of
    [dynamically_define_data_identifier] are formatted unmasked as well. *)
Theorem one_byte_parameter_not_masked :
  diagnostic_session_control 0x101 = "10 101"
  /\ diagnostic_session_control 0x101 <> "10 " ++ hex_byte (Z.land 0x101 0xFF)
  /\ ecu_reset 0x101 = "11 101"
  /\ read_data_by_periodic_identifier 0x101 [0xF2] = "2A 101 F2"
  /\ snd (dynamically_define_data_identifier 0x101 (ParamList []))
     = Ok "2C 101".
Proof.
  repeat split; try (vm_compute; reflexivity).
  vm_compute. discriminate.
Qed.

(** C6: [read_data_by_identifier([0xF190])] returns "22 F1 144", not
    "22 F1 90": the low byte of each identifier is written in decimal and
    without zero fill. *)
Theorem read_data_by_identifier_low_byte_decimal :
  read_data_by_identifier [0xF190] = "22 F1 144"
  /\ read_data_by_identifier [0xF190] <> "22 F1 90"
  /\ read_data_by_identifier [0xF190; 0x0102] = "22 F1 144 01 2".
Proof.
  repeat split; try (vm_compute; reflexivity).
  vm_compute. discriminate.
Qed.

(** C7: [communication_control(0x00, 0x01, 0x0102)] returns "28 00 01 01 2",
    not "28 00 01 01 02": the low byte of the node identification number is
    written in decimal and without zero fill.  Without the number the request
    is the SID and the two masked type bytes. *)
Theorem communication_control_node_low_byte_decimal :
  communication_control 0x00 0x01 (Some 0x0102) = "28 00 01 01 2"
  /\ communication_control 0x00 0x01 (Some 0x0102) <> "28 00 01 01 02"
  /\ forall control_type communication_type : Z,
      communication_control control_type communication_type None
      = "28 " ++ hex_byte (control_type mod 256)
          ++ " " ++ hex_byte (communication_type mod 256).
Proof.
  split; [vm_compute; reflexivity|].
  split; [vm_compute; discriminate|].
  intros c t. unfold communication_control.
  rewrite !format_02X_masked. reflexivity.
Qed.

End RequestShape.

(** ** DynamicallyDefineDataIdentifier *)

Section DynamicallyDefine.
Import Py Wire Services.

(** In the branch for definition type 2 the loop body raises on every tuple
    that has at least its first two fields. *)
Lemma define_by_memory_address_body_raises (request : string) (p0 p1 : Z)
      (fields : list Z) :
  define_by_memory_address_body request (p0 :: p1 :: fields) = Raise TypeError.
Proof. reflexivity. Qed.

Lemma define_by_memory_address_nonempty_raises (p0 p1 : Z)
      (fields : list Z) (others : list (list Z)) :
  dynamically_define_data_identifier 0x02 (ParamList ((p0 :: p1 :: fields) :: others))
  = ([], Raise TypeError).
Proof. reflexivity. Qed.

(** Definition type 1 does encode its tuples. *)
Lemma define_by_identifier_example :
  dynamically_define_data_identifier 0x01
    (ParamList [[0xF301; 0x1234; 0x01; 0x02]; [0xF302; 0x1235; 0x03; 0x04]])
  = ([], Ok "2C 01 F3 01 12 34 01 02 F3 02 12 35 03 04").
Proof. vm_compute. reflexivity. Qed.

(** C8: definition type 2 does not return a request for a well-formed tuple
    list.  For [[0xF301, 0x14, 0x1000, 0x01]] the call raises TypeError: the
    format byte is rebound to its formatted string before [& 0xF] is applied
    to it.  Only the empty list returns ("2C 02"). *)
Theorem define_by_memory_address_raises :
  dynamically_define_data_identifier 0x02
    (ParamList [[0xF301; 0x14; 0x1000; 0x01]])
  = ([], Raise TypeError)
  /\ dynamically_define_data_identifier 0x02 (ParamList []) = ([], Ok "2C 02").
Proof. split; vm_compute; reflexivity. Qed.

(** The fallback request at a definition type within a byte, and its
    warning line at 4. *)
Lemma invalid_definition_type_byte (definition_type : Z)
      (supporting_params : supporting) :
  0 <= definition_type < 256 ->
  definition_type <> 0x01 -> definition_type <> 0x02 -> definition_type <> 0x03 ->
  snd (dynamically_define_data_identifier definition_type supporting_params)
  = Ok ("2C " ++ hex_byte definition_type).
Proof.
  intros Hbyte H1 H2 H3. unfold dynamically_define_data_identifier.
  destruct (Z.eqb_spec definition_type 0x01); [contradiction|].
  destruct (Z.eqb_spec definition_type 0x02); [contradiction|].
  destruct (Z.eqb_spec definition_type 0x03); [contradiction|].
  unfold invalid_definition_type_message, str.
  assert (Hlimit : 256 <= str_limit) by (apply Z.leb_le; vm_compute; reflexivity).
  destruct (Z.leb_spec str_limit (Z.abs definition_type)); [lia|].
  cbn [bind snd]. rewrite (format_02X_byte definition_type) by exact Hbyte.
  reflexivity.
Qed.

Lemma invalid_definition_type_example :
  dynamically_define_data_identifier 0x04 (ParamInt 0xF301)
  = (["invalid definition_type 4. possible values -> 0 to 3. request sent without supporting_params"],
     Ok "2C 04").
Proof. vm_compute. reflexivity. Qed.

End DynamicallyDefine.

(** ** RequestTransferExit *)

Section RequestTransferExit.
Import Py Wire Services.

(** C10: without a parameter record [request_transfer_exit] returns "37",
    its own SID; with a record it returns the TransferData SID "36" followed
    by the record's bytes, each masked to eight bits. *)
Theorem request_transfer_exit_sid :
  request_transfer_exit None = "37"
  /\ Sid.RTE = 0x37 /\ Sid.TD = 0x36
  /\ (forall record : list Z,
         request_transfer_exit (Some record)
         = "36 " ++ join_space (map (fun v => hex_byte (v mod 256)) record))
  /\ request_transfer_exit (Some [0x01; 0x1FF; -1]) = "36 01 FF FF".
Proof.
  split; [reflexivity|]. split; [reflexivity|]. split; [reflexivity|].
  split; [|vm_compute; reflexivity].
  intros record. unfold request_transfer_exit.
  now rewrite join_masked_bytes.
Qed.

End RequestTransferExit.

(** ** Reading a request back *)

Section Decoding.
Import Py Wire Services.

Lemma hex_digit_value_char (d : Z) :
  0 <= d < 16 -> hex_digit_value (digit_char d) = Some d.
Proof.
  intros Hd.
  assert (Hall : forallb (fun n => match hex_digit_value (digit_char (Z.of_nat n)) with
                                   | Some v => v =? Z.of_nat n
                                   | None => false
                                   end) (seq 0 16) = true)
    by (vm_compute; reflexivity).
  rewrite forallb_forall in Hall. specialize (Hall (Z.to_nat d)).
  rewrite Z2Nat.id in Hall by lia.
  destruct (hex_digit_value (digit_char d)) as [v|].
  - f_equal. apply Z.eqb_eq, Hall, in_seq. lia.
  - discriminate Hall. apply in_seq. lia.
Qed.

Lemma hex_byte_digits (b : Z) :
  is_byte b ->
  hex_digit_value (digit_char (b / 16)) = Some (b / 16)
  /\ hex_digit_value (digit_char (b mod 16)) = Some (b mod 16).
Proof.
  unfold is_byte. intros Hb. split; apply hex_digit_value_char.
  - split; [apply Z.div_pos; lia | apply Z.div_lt_upper_bound; lia].
  - apply Z.mod_pos_bound. lia.
Qed.

Lemma parse_hex_byte (b : Z) : is_byte b -> parse_request (hex_byte b) = Some [b].
Proof.
  intros Hb. destruct (hex_byte_digits b Hb) as [Hhi Hlo].
  unfold hex_byte. cbn [parse_request]. rewrite Hhi, Hlo.
  do 2 f_equal. pose proof (Z.div_mod b 16 ltac:(lia)). lia.
Qed.

Lemma parse_hex_byte_cons (b : Z) (s : string) :
  is_byte b ->
  parse_request (hex_byte b ++ " " ++ s) = option_map (cons b) (parse_request s).
Proof.
  intros Hb. destruct (hex_byte_digits b Hb) as [Hhi Hlo].
  unfold hex_byte. cbn [append parse_request]. rewrite Hhi, Hlo.
  cbn [Ascii.eqb Bool.eqb].
  replace (b / 16 * 16 + b mod 16) with b
    by (pose proof (Z.div_mod b 16 ltac:(lia)); lia).
  reflexivity.
Qed.

(** A space-joined sequence of bytes reads back as those bytes. *)
Lemma parse_join (bytes : list Z) :
  bytes <> [] -> Forall is_byte bytes ->
  parse_request (join_space (map hex_byte bytes)) = Some bytes.
Proof.
  intros Hne Hall. induction Hall as [|b bytes Hb Hall IH]; [congruence|].
  destruct bytes as [|b' bytes].
  - cbn [map join_space]. now apply parse_hex_byte.
  - change (join_space (map hex_byte (b :: b' :: bytes)))
      with (hex_byte b ++ " " ++ join_space (map hex_byte (b' :: bytes))).
    rewrite parse_hex_byte_cons by exact Hb.
    rewrite IH by discriminate. reflexivity.
Qed.

Lemma parse_cons_join (b : Z) (bytes : list Z) :
  is_byte b -> bytes <> [] -> Forall is_byte bytes ->
  parse_request (hex_byte b ++ " " ++ join_space (map hex_byte bytes))
  = Some (b :: bytes).
Proof.
  intros Hb Hne Hall. rewrite parse_hex_byte_cons by exact Hb.
  now rewrite parse_join.
Qed.

(** Nothing that ends in a space reads back. *)
Lemma parse_trailing_space_len (n : nat) (s : string) :
  (String.length s <= n)%nat -> parse_request (s ++ " ") = None.
Proof.
  revert s. induction n as [|n IH]; intros s Hlen.
  - destruct s; [reflexivity | cbn in Hlen; lia].
  - destruct s as [|a [|b rest]]; [reflexivity| |].
    + cbn. destruct (hex_digit_value a); reflexivity.
    + cbn [append parse_request].
      destruct (hex_digit_value a); [|reflexivity].
      destruct (hex_digit_value b); [|reflexivity].
      destruct rest as [|c rest]; [reflexivity|].
      cbn [append]. destruct (Ascii.eqb c " "); [|reflexivity].
      rewrite IH; [reflexivity|]. cbn in Hlen. lia.
Qed.

Lemma parse_trailing_space (s : string) : parse_request (s ++ " ") = None.
Proof. exact (parse_trailing_space_len (String.length s) s (le_n _)). Qed.

Lemma is_hex_digit_value (c : ascii) :
  is_hex_digit c = match hex_digit_value c with Some _ => true | None => false end.
Proof. destruct c as [[] [] [] [] [] [] [] []]; reflexivity. Qed.

(** The two readings of "well formed" agree. *)
Lemma well_formed_iff_parse_len (n : nat) (s : string) :
  (String.length s <= n)%nat ->
  well_formed_request s
  = match parse_request s with Some _ => true | None => false end.
Proof.
  revert s. induction n as [|n IH]; intros s Hlen.
  - destruct s; [reflexivity | cbn in Hlen; lia].
  - destruct s as [|a [|b rest]]; [reflexivity | reflexivity |].
    cbn [well_formed_request parse_request]. rewrite !is_hex_digit_value.
    destruct (hex_digit_value a); [|reflexivity].
    destruct (hex_digit_value b); [|reflexivity].
    destruct rest as [|c rest]; [reflexivity|].
    destruct (Ascii.eqb c " "); [|reflexivity].
    cbn [andb]. rewrite IH by (cbn in Hlen; lia).
    destruct (parse_request rest); reflexivity.
Qed.

Lemma well_formed_iff_parse (s : string) :
  well_formed_request s
  = match parse_request s with Some _ => true | None => false end.
Proof. exact (well_formed_iff_parse_len (String.length s) s (le_n _)). Qed.

Lemma append_cancel (a x y : string) : a ++ x = a ++ y -> x = y.
Proof.
  induction a as [|c a IH]; cbn; intros H; [exact H|].
  injection H as H. now apply IH.
Qed.

Lemma sid_token (sid : Z) : is_byte sid -> format_02X sid = hex_byte sid.
Proof. apply format_02X_byte. Qed.

Lemma mod_256_byte (v : Z) : is_byte (v mod 256).
Proof. unfold is_byte. apply Z.mod_pos_bound. lia. Qed.

Lemma Forall_mod_256 (l : list Z) : Forall is_byte (map (fun v => v mod 256) l).
Proof.
  apply Forall_forall. intros b Hb. apply in_map_iff in Hb.
  destruct Hb as [v [<- _]]. apply mod_256_byte.
Qed.

Lemma join_masked_hex (l : list Z) :
  join_masked l = join_space (map hex_byte (map (fun v => v mod 256) l)).
Proof. rewrite join_masked_bytes, map_map. reflexivity. Qed.

End Decoding.

(** ** Operations that mask every field *)

Section MaskedOperations.
Import Py Wire Services.

Lemma sid_is_byte_SA : is_byte Sid.SA. Proof. now vm_compute. Qed.
Lemma sid_is_byte_TP : is_byte Sid.TP. Proof. now vm_compute. Qed.
Lemma sid_is_byte_ATP : is_byte Sid.ATP. Proof. now vm_compute. Qed.
Lemma sid_is_byte_SDT : is_byte Sid.SDT. Proof. now vm_compute. Qed.
Lemma sid_is_byte_CDTCS : is_byte Sid.CDTCS. Proof. now vm_compute. Qed.
Lemma sid_is_byte_ROE : is_byte Sid.ROE. Proof. now vm_compute. Qed.
Lemma sid_is_byte_RSDBI : is_byte Sid.RSDBI. Proof. now vm_compute. Qed.

(** SID, one masked byte and an optional masked record. *)
Lemma parse_sid_type_record (sid t : Z) (record : option (list Z)) :
  is_byte sid -> record <> Some [] ->
  parse_request
    (let request := format_02X sid ++ " " ++ format_02X (Z.land t 0xFF) in
     match record with
     | Some r => request ++ " " ++ join_masked r
     | None => request
     end)
  = Some (sid :: t mod 256 :: record_bytes record).
Proof.
  intros Hsid Hrec. cbv zeta.
  rewrite (sid_token sid Hsid), format_02X_masked.
  destruct record as [r|]; cbn [record_bytes].
  - rewrite join_masked_hex, !append_assoc3.
    rewrite parse_hex_byte_cons by exact Hsid.
    rewrite parse_cons_join; [reflexivity | apply mod_256_byte | | apply Forall_mod_256].
    intros Hnil. apply map_eq_nil in Hnil. congruence.
  - rewrite parse_hex_byte_cons by exact Hsid.
    rewrite parse_hex_byte by apply mod_256_byte. reflexivity.
Qed.

(** X1: whatever integer is passed, tester_present reads back as its SID
    and the low eight bits of the argument. *)
Theorem tester_present_decodes (zero_sub_functions : Z) :
  parse_request (tester_present zero_sub_functions)
  = Some [Sid.TP; zero_sub_functions mod 256].
Proof.
  unfold tester_present.
  rewrite (sid_token Sid.TP sid_is_byte_TP), format_02X_masked.
  rewrite parse_hex_byte_cons by exact sid_is_byte_TP.
  rewrite parse_hex_byte by apply mod_256_byte. reflexivity.
Qed.

(** X2: security_access, access_timing_parameter and control_dtc_setting
    read back as SID, masked type, and the masked record when one is given,
    provided the record is not the empty list. *)
Theorem type_and_record_decode (t : Z) (record : option (list Z)) :
  record <> Some [] ->
  parse_request (security_access t record)
  = Some (Sid.SA :: t mod 256 :: record_bytes record)
  /\ parse_request (access_timing_parameter t record)
     = Some (Sid.ATP :: t mod 256 :: record_bytes record)
  /\ parse_request (control_dtc_setting t record)
     = Some (Sid.CDTCS :: t mod 256 :: record_bytes record).
Proof.
  intros Hrec. repeat split.
  - exact (parse_sid_type_record Sid.SA t record sid_is_byte_SA Hrec).
  - exact (parse_sid_type_record Sid.ATP t record sid_is_byte_ATP Hrec).
  - exact (parse_sid_type_record Sid.CDTCS t record sid_is_byte_CDTCS Hrec).
Qed.

Lemma type_and_record_decode_witness :
  Some [0xAA; 0x1BB] <> Some []
  /\ parse_request (security_access 0x01 (Some [0xAA; 0x1BB]))
     = Some [0x27; 0x01; 0xAA; 0xBB].
Proof.
  split; [discriminate|].
  exact (proj1 (type_and_record_decode 0x01 (Some [0xAA; 0x1BB])
                  ltac:(discriminate))).
Defined.

(** X3: an empty record is not the same as no record: the request gets a
    trailing space and no longer reads back. *)
Theorem empty_record_trailing_space (t : Z) :
  security_access t (Some []) = security_access t None ++ " "
  /\ access_timing_parameter t (Some []) = access_timing_parameter t None ++ " "
  /\ control_dtc_setting t (Some []) = control_dtc_setting t None ++ " "
  /\ parse_request (security_access t (Some [])) = None
  /\ parse_request (access_timing_parameter t (Some [])) = None
  /\ parse_request (control_dtc_setting t (Some [])) = None
  /\ parse_request (secured_data_transmission []) = None.
Proof.
  assert (H1 : security_access t (Some []) = security_access t None ++ " ").
  { unfold security_access. cbv zeta. now rewrite !append_assoc3. }
  assert (H2 : access_timing_parameter t (Some [])
               = access_timing_parameter t None ++ " ").
  { unfold access_timing_parameter. cbv zeta. now rewrite !append_assoc3. }
  assert (H3 : control_dtc_setting t (Some []) = control_dtc_setting t None ++ " ").
  { unfold control_dtc_setting. cbv zeta. now rewrite !append_assoc3. }
  repeat split; try assumption.
  - rewrite H1. apply parse_trailing_space.
  - rewrite H2. apply parse_trailing_space.
  - rewrite H3. apply parse_trailing_space.
Qed.

(** X4: a non-empty secured-data record reads back as the SID followed by
    the low eight bits of each element, in order. *)
Theorem secured_data_transmission_decodes (record : list Z) :
  record <> [] ->
  parse_request (secured_data_transmission record)
  = Some (Sid.SDT :: map (fun v => v mod 256) record).
Proof.
  intros Hne. unfold secured_data_transmission.
  rewrite (sid_token Sid.SDT sid_is_byte_SDT), join_masked_hex.
  apply parse_cons_join; [exact sid_is_byte_SDT | | apply Forall_mod_256].
  intros Hnil. apply map_eq_nil in Hnil. contradiction.
Qed.

Lemma secured_data_transmission_decodes_witness :
  [0x01; -1; 0x100] <> []
  /\ parse_request (secured_data_transmission [0x01; -1; 0x100])
     = Some [0x84; 0x01; 0xFF; 0x00].
Proof.
  split; [discriminate|].
  exact (secured_data_transmission_decodes [0x01; -1; 0x100] ltac:(discriminate)).
Defined.

End MaskedOperations.

(** ** ResponseOnEvent and ReadScalingDataByIdentifier *)

Section EventAndScaling.
Import Py Wire Services.

Lemma join_masked_app (l1 l2 : list Z) :
  l1 <> [] -> l2 <> [] ->
  join_masked (l1 ++ l2)%list = join_masked l1 ++ " " ++ join_masked l2.
Proof.
  intros H1 H2. unfold join_masked. rewrite map_app.
  apply join_space_app; intros Hnil; apply map_eq_nil in Hnil; contradiction.
Qed.

(** X5: the two records of response_on_event are written one after the
    other with nothing between them but a space, so giving both is the same
    as giving their concatenation as the event-type record. *)
Theorem response_on_event_records_concatenate
        (event_type event_window_time : Z) (r1 r2 : list Z) :
  r1 <> [] -> r2 <> [] ->
  response_on_event event_type event_window_time (Some r1) (Some r2)
  = response_on_event event_type event_window_time (Some (r1 ++ r2)%list) None.
Proof.
  intros H1 H2. unfold response_on_event. cbv zeta.
  rewrite join_masked_app by assumption. now rewrite !append_assoc3.
Qed.

Lemma response_on_event_records_concatenate_witness :
  ([0x01] <> [] /\ [0x22; 0xF1; 0x90] <> [])
  /\ response_on_event 0x03 0x02 (Some [0x01]) (Some [0x22; 0xF1; 0x90])
     = response_on_event 0x03 0x02 (Some [0x01; 0x22; 0xF1; 0x90]) None.
Proof.
  split; [split; discriminate|].
  exact (response_on_event_records_concatenate 0x03 0x02 [0x01] [0x22; 0xF1; 0x90]
           ltac:(discriminate) ltac:(discriminate)).
Defined.

(** X6: response_on_event reads back as SID, the two masked bytes and the
    masked elements of whichever records are given, when no given record is
    the empty list. *)
Theorem response_on_event_decodes
        (event_type event_window_time : Z) (r1 r2 : option (list Z)) :
  r1 <> Some [] -> r2 <> Some [] ->
  parse_request (response_on_event event_type event_window_time r1 r2)
  = Some (Sid.ROE :: event_type mod 256 :: event_window_time mod 256
            :: (record_bytes r1 ++ record_bytes r2)%list).
Proof.
  intros H1 H2. unfold response_on_event. cbv zeta.
  rewrite (sid_token Sid.ROE sid_is_byte_ROE), !format_02X_masked.
  assert (Hne : forall l : list Z, Some l <> Some [] ->
                                   map (fun v => v mod 256) l <> []).
  { intros l Hl Hnil. apply map_eq_nil in Hnil. congruence. }
  destruct r1 as [l1|], r2 as [l2|]; cbn [record_bytes].
  - rewrite !join_masked_hex, !append_assoc3.
    rewrite <- join_space_app, <- map_app
      by (intros Hnil; apply map_eq_nil in Hnil; revert Hnil; now apply Hne).
    rewrite !parse_hex_byte_cons by (exact sid_is_byte_ROE || apply mod_256_byte).
    rewrite parse_join; [reflexivity | | ].
    + intros Hnil. apply app_eq_nil in Hnil. destruct Hnil as [Hnil _].
      revert Hnil. now apply Hne.
    + rewrite <- map_app. apply Forall_mod_256.
  - rewrite app_nil_r, !join_masked_hex, !append_assoc3.
    rewrite !parse_hex_byte_cons by (exact sid_is_byte_ROE || apply mod_256_byte).
    rewrite parse_join; [reflexivity | now apply Hne | apply Forall_mod_256].
  - cbn [app]. rewrite !join_masked_hex, !append_assoc3.
    rewrite !parse_hex_byte_cons by (exact sid_is_byte_ROE || apply mod_256_byte).
    rewrite parse_join; [reflexivity | now apply Hne | apply Forall_mod_256].
  - cbn [app].
    rewrite !parse_hex_byte_cons by (exact sid_is_byte_ROE || apply mod_256_byte).
    rewrite parse_hex_byte by apply mod_256_byte. reflexivity.
Qed.

Lemma response_on_event_decodes_witness :
  (Some [0x01] <> Some [] /\ @None (list Z) <> Some [])
  /\ parse_request (response_on_event 0x103 0x02 (Some [0x01]) None)
     = Some [0x86; 0x03; 0x02; 0x01].
Proof.
  split; [split; discriminate|].
  exact (response_on_event_decodes 0x103 0x02 (Some [0x01]) None
           ltac:(discriminate) ltac:(discriminate)).
Defined.

Lemma high_byte (d : Z) : Z.shiftr (Z.land d 0xFF00) 8 = (d / 256) mod 256.
Proof.
  rewrite Z.shiftr_land. change (Z.shiftr 0xFF00 8) with 0xFF.
  rewrite land_FF, Z.shiftr_div_pow2 by lia. reflexivity.
Qed.

Lemma high_byte_shift_first (d : Z) :
  Z.land (Z.shiftr d 8) 0xFF = (d / 256) mod 256.
Proof. rewrite land_FF, Z.shiftr_div_pow2 by lia. reflexivity. Qed.

(** X7: for every integer, read_scaling_data_by_identifier reads back as its
    SID and the two low bytes of the identifier, high byte first. *)
Theorem read_scaling_data_by_identifier_decodes (data_identifier : Z) :
  parse_request (read_scaling_data_by_identifier data_identifier)
  = Some (Sid.RSDBI :: did_bytes data_identifier).
Proof.
  unfold read_scaling_data_by_identifier, did_bytes.
  rewrite (sid_token Sid.RSDBI sid_is_byte_RSDBI), high_byte, format_02X_masked.
  rewrite (format_02X_byte ((data_identifier / 256) mod 256))
    by apply mod_256_byte.
  rewrite !parse_hex_byte_cons by (exact sid_is_byte_RSDBI || apply mod_256_byte).
  rewrite parse_hex_byte by apply mod_256_byte. reflexivity.
Qed.

End EventAndScaling.

(** ** Operations that format a field without masking it *)

Section UnmaskedOperations.
Import Py Wire Services.

Lemma digit_char_not_space (d : Z) : Ascii.eqb (digit_char d) " " = false.
Proof.
  destruct d as [|p|p]; try reflexivity.
  do 5 (try destruct p as [p|p|]); reflexivity.
Qed.

Lemma digit_char_no_value_of_minus : hex_digit_value "-" = None.
Proof. reflexivity. Qed.

Lemma digits_le_nonempty (fuel : nat) (base n : Z) :
  digits_le (S fuel) base n <> [].
Proof. cbn [digits_le]. destruct (n <? base); discriminate. Qed.

(** A number of at least [base * base] has three digits or more. *)
Lemma digits_long (base t : Z) :
  1 < base -> base * base <= t -> (3 <= List.length (digits base t))%nat.
Proof.
  intros Hbase Ht. unfold digits. rewrite length_rev.
  assert (Hlog : 2 <= Z.log2 t).
  { apply Z.log2_le_pow2; [nia|]. change (2 ^ 2) with 4. nia. }
  destruct (Z.to_nat (Z.log2 t)) as [|[|k]] eqn:Hk; [lia | lia |].
  cbn [digits_le].
  destruct (Z.ltb_spec t base); [nia|].
  destruct (Z.ltb_spec (t / base) base) as [Hlt|_].
  { assert (base <= t / base) by (apply Z.div_le_lower_bound; lia). lia. }
  destruct (t / base / base <? base); simpl List.length; lia.
Qed.

Lemma render_long (base t : Z) :
  1 < base -> base * base <= t ->
  exists (a b : ascii) (c : Z) (rest : string),
    render base t = String a (String b (String (digit_char c) rest)).
Proof.
  intros Hbase Ht. pose proof (digits_long base t Hbase Ht) as Hlen.
  unfold render. destruct (digits base t) as [|x [|y [|z ds]]];
    cbn [List.length] in Hlen; try lia.
  cbn [map string_of_list_ascii]. now eexists _, _, _, _.
Qed.

Lemma parse_three_unspaced (a b c : ascii) (rest : string) :
  Ascii.eqb c " " = false ->
  parse_request (String a (String b (String c rest))) = None.
Proof.
  intros Hc. cbn [parse_request].
  destruct (hex_digit_value a); [|reflexivity].
  destruct (hex_digit_value b); [|reflexivity].
  now rewrite Hc.
Qed.

Lemma parse_signed (s : string) : parse_request (String "-" s) = None.
Proof. destruct s; reflexivity. Qed.

(** What can be read from a field formatted by [:02X] without a mask. *)
Lemma parse_format_02X (t : Z) :
  parse_request (format_02X t)
  = if (0 <=? t) && (t <? 256) then Some [t] else None.
Proof.
  destruct (Z.leb_spec 0 t) as [Hpos|Hneg]; cbn [andb].
  - destruct (Z.ltb_spec t 256) as [Hlt|Hge].
    + rewrite format_02X_byte by lia. apply parse_hex_byte. unfold is_byte. lia.
    + unfold format_02X. destruct (Z.ltb_spec t 0); [lia|].
      destruct (render_long 16 t ltac:(lia) ltac:(lia)) as (a & b & c & rest & Hr).
      cbv zeta. rewrite Hr. cbn [String.length Nat.ltb Nat.leb].
      apply parse_three_unspaced, digit_char_not_space.
  - unfold format_02X. destruct (Z.ltb_spec t 0); [|lia].
    apply parse_signed.
Qed.

Lemma parse_sid_then (sid : Z) (s : string) :
  is_byte sid ->
  parse_request (format_02X sid ++ " " ++ s)
  = option_map (cons sid) (parse_request s).
Proof.
  intros Hsid. rewrite (sid_token sid Hsid). now apply parse_hex_byte_cons.
Qed.

(** X8: diagnostic_session_control and ecu_reset do not mask their
    argument: the request reads back as SID and argument exactly when the
    argument is within 0..255, and cannot be read back otherwise. *)
Theorem session_and_reset_readable_iff_byte (t : Z) :
  parse_request (diagnostic_session_control t)
  = (if (0 <=? t) && (t <? 256) then Some [Sid.DSC; t] else None)
  /\ parse_request (ecu_reset t)
     = (if (0 <=? t) && (t <? 256) then Some [Sid.ER; t] else None).
Proof.
  unfold diagnostic_session_control, ecu_reset.
  rewrite !parse_sid_then by now vm_compute.
  rewrite parse_format_02X.
  destruct ((0 <=? t) && (t <? 256)); split; reflexivity.
Qed.

(** X9: read_data_by_periodic_identifier reads back as SID, transmission
    mode and the masked identifiers when the mode is within 0..255 and the
    identifier list is not empty; a mode outside 0..255 makes the request
    unreadable. *)
Theorem read_data_by_periodic_identifier_decodes
        (transmission_mode : Z) (periodic_data_identifier : list Z) :
  periodic_data_identifier <> [] ->
  parse_request
    (read_data_by_periodic_identifier transmission_mode periodic_data_identifier)
  = if (0 <=? transmission_mode) && (transmission_mode <? 256)
    then Some (Sid.RDBPI :: transmission_mode
                 :: map (fun v => v mod 256) periodic_data_identifier)
    else None.
Proof.
  intros Hne. unfold read_data_by_periodic_identifier. cbv zeta.
  rewrite !append_assoc3. rewrite parse_sid_then by now vm_compute.
  destruct (Z.leb_spec 0 transmission_mode) as [Hpos|Hneg]; cbn [andb].
  - destruct (Z.ltb_spec transmission_mode 256) as [Hlt|Hge].
    + rewrite format_02X_byte by lia. rewrite join_masked_hex.
      rewrite parse_cons_join; [reflexivity | unfold is_byte; lia | | apply Forall_mod_256].
      intros Hnil. apply map_eq_nil in Hnil. contradiction.
    + unfold format_02X. destruct (Z.ltb_spec transmission_mode 0); [lia|].
      destruct (render_long 16 transmission_mode ltac:(lia) ltac:(lia))
        as (a & b & c & rest & Hr).
      cbv zeta. rewrite Hr. cbn [String.length Nat.ltb Nat.leb append].
      now rewrite parse_three_unspaced by apply digit_char_not_space.
  - unfold format_02X. destruct (Z.ltb_spec transmission_mode 0); [|lia].
    cbn [append]. now rewrite parse_signed.
Qed.

Lemma read_data_by_periodic_identifier_decodes_witness :
  [0xF2; 0x1F3] <> []
  /\ parse_request (read_data_by_periodic_identifier 0x01 [0xF2; 0x1F3])
     = Some [0x2A; 0x01; 0xF2; 0xF3].
Proof.
  split; [discriminate|].
  exact (read_data_by_periodic_identifier_decodes 0x01 [0xF2; 0x1F3]
           ltac:(discriminate)).
Defined.

End UnmaskedOperations.

(** ** When the big-endian helper returns *)

Section HelperRanges.
Import Py Wire Services.

Lemma round_div8_enough (b : Z) :
  0 <= b -> (b <=? 8 * round_div8 b) = length_rounds_up b.
Proof.
  intros Hb. unfold round_div8, length_rounds_up. cbv zeta.
  pose proof (Z.div_mod b 8 ltac:(lia)) as Hdm.
  pose proof (Z.mod_pos_bound b 8 ltac:(lia)) as Hr.
  rewrite <- Z.negb_even.
  destruct (Z.ltb_spec (b mod 8) 4), (Z.ltb_spec 4 (b mod 8)),
    (Z.eqb_spec (b mod 8) 0), (Z.leb_spec 5 (b mod 8)),
    (Z.eqb_spec (b mod 8) 4), (Z.even (b / 8));
    cbn [orb andb negb];
    match goal with
    | |- (?x <=? ?y) = true => apply Z.leb_le; lia
    | |- (?x <=? ?y) = false => apply Z.leb_gt; lia
    | _ => exfalso; lia
    end.
Qed.

Lemma round_div8_top (b n : Z) : 8 * n - 3 <= b <= 8 * n -> round_div8 b = n.
Proof.
  intros Hb. unfold round_div8. cbv zeta.
  pose proof (Z.div_mod b 8 ltac:(lia)) as Hdm.
  pose proof (Z.mod_pos_bound b 8 ltac:(lia)) as Hr.
  destruct (Z.ltb_spec (b mod 8) 4), (Z.ltb_spec 4 (b mod 8)),
    (Z.even (b / 8)); lia.
Qed.

Lemma round_div8_low (b n : Z) :
  8 * n - 7 <= b <= 8 * n - 5 -> round_div8 b = n - 1.
Proof.
  intros Hb. unfold round_div8. cbv zeta.
  pose proof (Z.div_mod b 8 ltac:(lia)) as Hdm.
  pose proof (Z.mod_pos_bound b 8 ltac:(lia)) as Hr.
  destruct (Z.ltb_spec (b mod 8) 4), (Z.ltb_spec 4 (b mod 8)),
    (Z.even (b / 8)); lia.
Qed.

Lemma bit_length_pos (v : Z) : 0 < v -> bit_length v = Z.log2 v + 1.
Proof.
  intros Hv. unfold bit_length. destruct (Z.eqb_spec v 0); [lia|].
  now rewrite Z.abs_eq by lia.
Qed.

Lemma pow_256 (n : Z) : 0 <= n -> 256 ^ n = 2 ^ (8 * n).
Proof. intros Hn. now rewrite Z.pow_mul_r by lia. Qed.

(** X10: the helper returns exactly for 0 and for the positive integers
    whose bit length, modulo 8, is 0, 5, 6 or 7, or is 4 with an odd
    quotient; for every other integer, negative ones included, it raises. *)
Theorem convert_int_to_str_of_bytes_returns_iff (v : Z) :
  is_ok (convert_int_to_str_of_bytes v)
  = (0 <=? v) && ((v =? 0) || length_rounds_up (bit_length v)).
Proof.
  unfold convert_int_to_str_of_bytes, to_bytes.
  destruct (Z.ltb_spec v 0) as [Hneg|Hpos].
  - destruct (Z.leb_spec 0 v); [lia | reflexivity].
  - destruct (Z.leb_spec 0 v); [|lia]. cbn [andb].
    destruct (Z.eqb_spec v 0) as [->|Hne]; [reflexivity|]. cbn [orb].
    rewrite <- round_div8_enough by apply bit_length_nonneg.
    set (n := round_div8 (bit_length v)).
    assert (Hn : 0 <= n) by apply round_div8_nonneg, bit_length_nonneg.
    rewrite bit_length_pos by lia.
    destruct (Z.ltb_spec v (256 ^ n)) as [Hfit|Hbig]; cbn [bind is_ok]; symmetry.
    + apply Z.leb_le. rewrite pow_256 in Hfit by lia.
      apply Z.log2_lt_pow2 in Hfit; lia.
    + apply Z.leb_gt. rewrite pow_256 in Hbig by lia.
      assert (8 * n <= Z.log2 v) by (apply Z.log2_le_pow2; lia). lia.
Qed.

Lemma convert_with_length (v n : Z) :
  0 <= v < 256 ^ n -> 0 <= n -> round_div8 (bit_length v) = n ->
  convert_int_to_str_of_bytes v = Ok (join_space (map hex_byte (sized_bytes v n))).
Proof.
  intros Hv Hn Hround. unfold convert_int_to_str_of_bytes, to_bytes.
  rewrite Hround.
  destruct (Z.ltb_spec v 0); [lia|].
  destruct (Z.ltb_spec v (256 ^ n)); [|lia].
  cbn [bind]. f_equal. unfold sized_bytes. rewrite !map_map. f_equal.
  apply map_ext. intros i. apply format_02X_byte, land_FF_byte.
Qed.

Lemma bit_length_window (v lo hi : Z) :
  0 <= lo -> 2 ^ lo <= v < 2 ^ hi -> lo + 1 <= bit_length v <= hi.
Proof.
  intros Hlo [Hge Hlt].
  assert (0 < 2 ^ lo) by (apply Z.pow_pos_nonneg; lia).
  rewrite bit_length_pos by lia.
  assert (lo <= Z.log2 v) by (apply Z.log2_le_pow2; lia).
  assert (Z.log2 v < hi) by (apply Z.log2_lt_pow2; lia).
  lia.
Qed.

Lemma pow_256_pred (n : Z) : 1 <= n -> 256 ^ (n - 1) = 2 ^ (8 * n - 8).
Proof.
  intros Hn. rewrite pow_256 by lia. f_equal. lia.
Qed.

Lemma convert_leading_high (v n : Z) :
  1 <= n -> 16 * 256 ^ (n - 1) <= v < 256 ^ n ->
  convert_int_to_str_of_bytes v = Ok (join_space (map hex_byte (sized_bytes v n))).
Proof.
  intros Hn Hv.
  assert (Hpow : 16 * 256 ^ (n - 1) = 2 ^ (8 * n - 4)).
  { rewrite pow_256_pred by lia. change 16 with (2 ^ 4).
    rewrite <- Z.pow_add_r by lia. f_equal. lia. }
  assert (Hbl : 8 * n - 3 <= bit_length v <= 8 * n).
  { pose proof (bit_length_window v (8 * n - 4) (8 * n) ltac:(lia)) as Hw.
    rewrite <- Hpow, <- pow_256 in Hw by lia. specialize (Hw Hv). lia. }
  assert (0 < 256 ^ (n - 1)) by (apply Z.pow_pos_nonneg; lia).
  apply convert_with_length; [lia | lia | now apply round_div8_top].
Qed.

Lemma sized_bytes_nonempty (v n : Z) : 1 <= n -> sized_bytes v n <> [].
Proof.
  intros Hn Hnil. apply (f_equal (@List.length Z)) in Hnil.
  rewrite sized_bytes_length in Hnil. cbn in Hnil. lia.
Qed.

Lemma convert_leading_low (v n : Z) :
  1 <= n -> 256 ^ (n - 1) <= v < 8 * 256 ^ (n - 1) ->
  convert_int_to_str_of_bytes v = Raise OverflowError.
Proof.
  intros Hn Hv.
  assert (Hpow : 8 * 256 ^ (n - 1) = 2 ^ (8 * n - 5)).
  { rewrite pow_256_pred by lia. change 8 with (2 ^ 3) at 1.
    rewrite <- Z.pow_add_r by lia. f_equal. lia. }
  assert (Hbl : 8 * n - 7 <= bit_length v <= 8 * n - 5).
  { pose proof (bit_length_window v (8 * n - 8) (8 * n - 5) ltac:(lia)) as Hw.
    rewrite <- Hpow, <- pow_256_pred in Hw by lia. specialize (Hw Hv). lia. }
  assert (0 < 256 ^ (n - 1)) by (apply Z.pow_pos_nonneg; lia).
  unfold convert_int_to_str_of_bytes, to_bytes.
  rewrite (round_div8_low _ n Hbl).
  destruct (Z.ltb_spec v 0); [reflexivity|].
  destruct (Z.ltb_spec v (256 ^ (n - 1))); [lia | reflexivity].
Qed.

(** X11: an integer whose leading byte is at least 0x10, that is
    [16 * 256^(n-1) <= v < 256^n], is written as exactly [n] bytes that read
    back as [v]. *)
Theorem convert_int_to_str_of_bytes_leading_byte_high (v n : Z) :
  1 <= n -> 16 * 256 ^ (n - 1) <= v < 256 ^ n ->
  exists (s : string) (bytes : list Z),
    convert_int_to_str_of_bytes v = Ok s
    /\ parse_request s = Some bytes
    /\ Z.of_nat (List.length bytes) = n
    /\ be_value bytes = v.
Proof.
  intros Hn Hv.
  assert (0 < 256 ^ (n - 1)) by (apply Z.pow_pos_nonneg; lia).
  exists (join_space (map hex_byte (sized_bytes v n))), (sized_bytes v n).
  split; [now apply convert_leading_high|].
  split; [apply parse_join;
          [now apply sized_bytes_nonempty | apply sized_bytes_are_bytes]|].
  split; [rewrite sized_bytes_length; lia|].
  rewrite sized_bytes_value by lia. apply Z.mod_small. lia.
Qed.

Lemma convert_int_to_str_of_bytes_leading_byte_high_witness :
  (1 <= 2 /\ 16 * 256 ^ (2 - 1) <= 0x1234 < 256 ^ 2)
  /\ exists (s : string) (bytes : list Z),
      convert_int_to_str_of_bytes 0x1234 = Ok s
      /\ parse_request s = Some bytes
      /\ Z.of_nat (List.length bytes) = 2
      /\ be_value bytes = 0x1234.
Proof.
  split; [vm_compute; repeat split; discriminate|].
  apply (convert_int_to_str_of_bytes_leading_byte_high 0x1234 2);
    vm_compute; repeat split; discriminate.
Defined.

(** X12: an integer whose leading byte is below 8, that is
    [256^(n-1) <= v < 8 * 256^(n-1)], makes the helper raise
    OverflowError. *)
Theorem convert_int_to_str_of_bytes_leading_byte_low (v n : Z) :
  1 <= n -> 256 ^ (n - 1) <= v < 8 * 256 ^ (n - 1) ->
  convert_int_to_str_of_bytes v = Raise OverflowError.
Proof. exact (convert_leading_low v n). Qed.

Lemma convert_int_to_str_of_bytes_leading_byte_low_witness :
  (1 <= 2 /\ 256 ^ (2 - 1) <= 0x0123 < 8 * 256 ^ (2 - 1))
  /\ convert_int_to_str_of_bytes 0x0123 = Raise OverflowError.
Proof.
  split; [vm_compute; repeat split; discriminate|].
  apply (convert_int_to_str_of_bytes_leading_byte_low 0x0123 2);
    vm_compute; repeat split; discriminate.
Defined.

(** X13: whenever the helper returns for a non-zero integer, its text reads
    back as a byte sequence that stands for that integer and is as short as
    any byte sequence standing for it. *)
Theorem convert_int_to_str_of_bytes_round_trip (v : Z) (s : string) :
  convert_int_to_str_of_bytes v = Ok s -> v <> 0 ->
  exists bytes : list Z,
    parse_request s = Some bytes
    /\ be_value bytes = v
    /\ forall bytes' : list Z,
        Forall is_byte bytes' -> be_value bytes' = v ->
        (List.length bytes <= List.length bytes')%nat.
Proof.
  intros Hok Hne.
  destruct (convert_int_to_str_of_bytes_ok_minimal v s Hok)
    as (_ & bytes & -> & Hbytes & Hval & Hmin).
  exists bytes. split; [|split; assumption].
  apply parse_join; [|exact Hbytes].
  intros ->. cbn in Hval. congruence.
Qed.

Lemma convert_int_to_str_of_bytes_round_trip_witness :
  (convert_int_to_str_of_bytes 0xF190 = Ok "F1 90" /\ 0xF190 <> 0)
  /\ exists bytes : list Z,
      parse_request "F1 90" = Some bytes
      /\ be_value bytes = 0xF190
      /\ forall bytes' : list Z,
          Forall is_byte bytes' -> be_value bytes' = 0xF190 ->
          (List.length bytes <= List.length bytes')%nat.
Proof.
  split; [split; [vm_compute; reflexivity | discriminate]|].
  apply (convert_int_to_str_of_bytes_round_trip 0xF190 "F1 90");
    [vm_compute; reflexivity | discriminate].
Defined.

End HelperRanges.

(** ** Operations built on the helper *)

Section HelperOperations.
Import Py Wire Services.

Lemma convert_only_overflow (v : Z) : only_overflow (convert_int_to_str_of_bytes v).
Proof.
  unfold convert_int_to_str_of_bytes, to_bytes.
  destruct (v <? 0); [reflexivity|].
  destruct (v <? 256 ^ round_div8 (bit_length v)); cbn; trivial.
Qed.

Lemma bind_only_overflow {A B : Type} (m : result A) (k : A -> result B) :
  only_overflow m -> (forall a, only_overflow (k a)) -> only_overflow (m <- m ;; k m).
Proof. destruct m; cbn; intros Hm Hk; [apply Hk | exact Hm]. Qed.

(** X14: the nine operations that send their header fields through the
    helper either return or raise OverflowError; they raise nothing else. *)
Theorem helper_operations_only_overflow
        (a b c d : Z) (record : list Z) (mask : option (list Z)) :
  only_overflow (write_data_by_identifier a record)
  /\ only_overflow (write_memory_by_address a b c record)
  /\ only_overflow (clear_diagnostic_information a)
  /\ only_overflow (read_dtc_information a record)
  /\ only_overflow (input_output_control_by_identifier a record mask)
  /\ only_overflow (routine_control a b mask)
  /\ only_overflow (request_download a b c d)
  /\ only_overflow (request_upload a b c d)
  /\ only_overflow (transfer_data a record).
Proof.
  unfold write_data_by_identifier, write_memory_by_address,
    clear_diagnostic_information, read_dtc_information,
    input_output_control_by_identifier, routine_control, request_download,
    request_upload, transfer_data.
  repeat split;
    repeat (apply bind_only_overflow; [apply convert_only_overflow | intros ?]);
    exact I.
Qed.

(** X15: a first header field from 1 to 15 makes every operation that
    converts it with the helper raise OverflowError, whatever the other
    arguments are. *)
Theorem first_field_below_16_raises
        (t b c d : Z) (record : list Z) (mask : option (list Z))
        (o1 o2 : option Z) (u1 u2 : option (list Z)) :
  0 < t < 16 ->
  write_data_by_identifier t record = Raise OverflowError
  /\ write_memory_by_address t b c record = Raise OverflowError
  /\ clear_diagnostic_information t = Raise OverflowError
  /\ read_dtc_information t record = Raise OverflowError
  /\ input_output_control_by_identifier t record mask = Raise OverflowError
  /\ routine_control t b mask = Raise OverflowError
  /\ request_upload t b c d = Raise OverflowError
  /\ transfer_data t record = Raise OverflowError
  /\ request_file_transfer t b record o1 o2 u1 u2 = Raise OverflowError.
Proof.
  intros Ht.
  unfold write_data_by_identifier, write_memory_by_address,
    clear_diagnostic_information, read_dtc_information,
    input_output_control_by_identifier, routine_control,
    request_upload, transfer_data, request_file_transfer.
  rewrite (convert_int_to_str_of_bytes_nibble_raises t Ht).
  repeat split.
Qed.

Lemma first_field_below_16_raises_witness :
  0 < Sfid.start_routine < 16
  /\ routine_control Sfid.start_routine 0xFF00 None = Raise OverflowError
  /\ transfer_data 0x01 [0xAA] = Raise OverflowError.
Proof.
  pose proof (first_field_below_16_raises 0x01 0xFF00 0 0 [0xAA] None None None
                None None ltac:(vm_compute; split; reflexivity)) as H.
  split; [vm_compute; split; reflexivity|].
  split; [exact (proj1 (proj2 (proj2 (proj2 (proj2 (proj2 H))))))
         | exact (proj1 (proj2 (proj2 (proj2 (proj2 (proj2 (proj2 (proj2 H))))))))].
Defined.

(** X16: when the optional record is left out, routine_control and
    input_output_control_by_identifier end their request with a space, so
    whenever they return the request cannot be read back. *)
Theorem omitted_record_unreadable (a b : Z) (record : list Z) (s : string) :
  routine_control a b None = Ok s
  \/ input_output_control_by_identifier a record None = Ok s ->
  parse_request s = None.
Proof.
  unfold routine_control, input_output_control_by_identifier.
  intros [H|H].
  - destruct (convert_int_to_str_of_bytes a) as [sa|]; [|discriminate].
    destruct (convert_int_to_str_of_bytes b) as [sb|]; [|discriminate].
    cbn [bind] in H. injection H as <-.
    transitivity (parse_request ((format_02X Sid.RC ++ " " ++ sa ++ " " ++ sb) ++ " "));
      [f_equal; rewrite !append_assoc3; reflexivity | apply parse_trailing_space].
  - destruct (convert_int_to_str_of_bytes a) as [sa|]; [|discriminate].
    cbn [bind] in H. injection H as <-.
    transitivity
      (parse_request
         ((format_02X Sid.IOCBI ++ " " ++ sa ++ " " ++ join_masked record) ++ " "));
      [f_equal; rewrite !append_assoc3; reflexivity | apply parse_trailing_space].
Qed.

Lemma omitted_record_unreadable_witness :
  (routine_control 0x31 0xFF00 None = Ok "31 31 FF 00 "
   \/ input_output_control_by_identifier 0x31 [] None = Ok "31 31 FF 00 ")
  /\ parse_request "31 31 FF 00 " = None.
Proof.
  split; [left; vm_compute; reflexivity|].
  apply (omitted_record_unreadable 0x31 0xFF00 [] "31 31 FF 00 ").
  left. vm_compute. reflexivity.
Defined.

End HelperOperations.

(** ** Transfer and write requests *)

Section TransferAndWrite.
Import Py Wire Services.

Lemma sized_bytes_one (v : Z) : sized_bytes v 1 = [v mod 256].
Proof.
  change 1 with (Z.of_nat 1) at 1. rewrite sized_bytes_succ.
  change (Z.of_nat 0 * 8) with 0. rewrite Z.shiftr_0_r, land_FF. reflexivity.
Qed.

Lemma sized_bytes_two (v : Z) : sized_bytes v 2 = did_bytes v.
Proof.
  change 2 with (Z.of_nat 2) at 1. rewrite !sized_bytes_succ.
  change (Z.of_nat 1 * 8) with 8. change (Z.of_nat 0 * 8) with 0.
  rewrite Z.shiftr_0_r, !land_FF, Z.shiftr_div_pow2 by lia. reflexivity.
Qed.

Lemma convert_one_byte (c : Z) :
  16 <= c < 256 -> convert_int_to_str_of_bytes c = Ok (hex_byte c).
Proof.
  intros Hc.
  assert (Hbl : 8 * 1 - 3 <= bit_length c <= 8 * 1).
  { pose proof (bit_length_window c 4 8 ltac:(lia)) as Hw.
    change (2 ^ 4) with 16 in Hw. change (2 ^ 8) with 256 in Hw. lia. }
  rewrite (convert_with_length c 1);
    [| change (256 ^ 1) with 256; lia | lia | now apply round_div8_top].
  rewrite sized_bytes_one, Z.mod_small by lia. reflexivity.
Qed.

Lemma round_div8_two (b : Z) : 12 <= b <= 16 -> round_div8 b = 2.
Proof.
  intros Hb.
  assert (Hcase : b = 12 \/ b = 13 \/ b = 14 \/ b = 15 \/ b = 16) by lia.
  destruct Hcase as [-> | [-> | [-> | [-> | ->]]]]; reflexivity.
Qed.

Lemma convert_two_bytes (d : Z) :
  0x800 <= d < 0x10000 ->
  convert_int_to_str_of_bytes d = Ok (join_space (map hex_byte (did_bytes d))).
Proof.
  intros Hd.
  assert (Hbl : 12 <= bit_length d <= 16).
  { pose proof (bit_length_window d 11 16 ltac:(lia)) as Hw.
    change (2 ^ 11) with 0x800 in Hw. change (2 ^ 16) with 0x10000 in Hw. lia. }
  rewrite (convert_with_length d 2);
    [| change (256 ^ 2) with 0x10000; lia | lia | now apply round_div8_two].
  now rewrite sized_bytes_two.
Qed.

(** X17: with a block sequence counter from 0x10 to 0xFF and a non-empty
    record, transfer_data returns a request that reads back as SID, counter
    and the masked record. *)
Theorem transfer_data_decodes (block_sequence_counter : Z) (record : list Z) :
  16 <= block_sequence_counter < 256 -> record <> [] ->
  exists s : string,
    transfer_data block_sequence_counter record = Ok s
    /\ parse_request s
       = Some (Sid.TD :: block_sequence_counter
                 :: map (fun v => v mod 256) record).
Proof.
  intros Hc Hne. unfold transfer_data.
  rewrite (convert_one_byte _ Hc). cbn [bind]. eexists. split; [reflexivity|].
  rewrite parse_sid_then by now vm_compute.
  rewrite join_masked_hex, parse_cons_join;
    [reflexivity | unfold is_byte; lia | | apply Forall_mod_256].
  intros Hnil. apply map_eq_nil in Hnil. contradiction.
Qed.

Lemma transfer_data_decodes_witness :
  (16 <= 0x21 < 256 /\ [0xDE; 0xAD] <> [])
  /\ exists s : string,
      transfer_data 0x21 [0xDE; 0xAD] = Ok s
      /\ parse_request s = Some [0x36; 0x21; 0xDE; 0xAD].
Proof.
  split; [split; [vm_compute; split; [discriminate | reflexivity] | discriminate]|].
  apply (transfer_data_decodes 0x21 [0xDE; 0xAD]);
    [vm_compute; split; [discriminate | reflexivity] | discriminate].
Defined.

(** X18: request_transfer_exit with a record is text-for-text a
    transfer_data request: the first record element takes the place of the
    block sequence counter. *)
Theorem request_transfer_exit_is_transfer_data (c : Z) (record : list Z) :
  16 <= c < 256 -> record <> [] ->
  transfer_data c record = Ok (request_transfer_exit (Some (c :: record))).
Proof.
  intros Hc Hne. unfold transfer_data, request_transfer_exit.
  rewrite (convert_one_byte _ Hc). cbn [bind]. do 2 f_equal.
  destruct record as [|r record]; [contradiction|].
  unfold join_masked at 2. cbn [map join_space].
  rewrite format_02X_masked, Z.mod_small by lia. reflexivity.
Qed.

Lemma request_transfer_exit_is_transfer_data_witness :
  (16 <= 0x21 < 256 /\ [0xDE; 0xAD] <> [])
  /\ transfer_data 0x21 [0xDE; 0xAD]
     = Ok (request_transfer_exit (Some [0x21; 0xDE; 0xAD])).
Proof.
  split; [split; [vm_compute; split; [discriminate | reflexivity] | discriminate]|].
  apply (request_transfer_exit_is_transfer_data 0x21 [0xDE; 0xAD]);
    [vm_compute; split; [discriminate | reflexivity] | discriminate].
Defined.

(** X19: write_data_by_identifier writes a data identifier from 0x0800 to
    0xFFFF as two bytes followed by the masked record; identifiers from
    0x0100 to 0x07FF make it raise OverflowError, and identifiers from 0x10
    to 0xFF are written as a single byte. *)
Theorem write_data_by_identifier_ranges (data_identifier : Z) (record : list Z) :
  record <> [] ->
  (0x800 <= data_identifier < 0x10000 ->
   exists s : string,
     write_data_by_identifier data_identifier record = Ok s
     /\ parse_request s
        = Some (Sid.WDBI :: (did_bytes data_identifier
                               ++ map (fun v => v mod 256) record)%list))
  /\ (0x100 <= data_identifier < 0x800 ->
      write_data_by_identifier data_identifier record = Raise OverflowError)
  /\ (0x10 <= data_identifier < 0x100 ->
      exists s : string,
        write_data_by_identifier data_identifier record = Ok s
        /\ parse_request s
           = Some (Sid.WDBI :: data_identifier
                     :: map (fun v => v mod 256) record)).
Proof.
  intros Hne.
  assert (Hrec : map (fun v => v mod 256) record <> []).
  { intros Hnil. apply map_eq_nil in Hnil. contradiction. }
  unfold write_data_by_identifier. repeat split.
  - intros Hd. rewrite (convert_two_bytes _ Hd). cbn [bind].
    eexists. split; [reflexivity|].
    rewrite parse_sid_then by now vm_compute.
    rewrite join_masked_hex, <- join_space_app, <- map_app;
      [| discriminate | intros Hnil; apply map_eq_nil in Hnil; contradiction].
    rewrite parse_join; [reflexivity | discriminate |].
    apply Forall_app. split; [|apply Forall_mod_256].
    unfold did_bytes. repeat constructor; apply mod_256_byte.
  - intros Hd.
    rewrite (convert_leading_low data_identifier 2);
      [reflexivity | lia | change (256 ^ (2 - 1)) with 256; lia].
  - intros Hd. rewrite (convert_one_byte _ Hd). cbn [bind].
    eexists. split; [reflexivity|].
    rewrite parse_sid_then by now vm_compute.
    rewrite join_masked_hex, parse_cons_join;
      [reflexivity | unfold is_byte; lia | exact Hrec | apply Forall_mod_256].
Qed.

Lemma write_data_by_identifier_ranges_witness :
  [0x01; 0x02] <> []
  /\ (exists s : string,
         write_data_by_identifier 0xF190 [0x01; 0x02] = Ok s
         /\ parse_request s = Some [0x2E; 0xF1; 0x90; 0x01; 0x02])
  /\ write_data_by_identifier 0x0123 [0x01; 0x02] = Raise OverflowError.
Proof.
  pose proof (write_data_by_identifier_ranges 0xF190 [0x01; 0x02]
                ltac:(discriminate)) as [Hhigh _].
  pose proof (write_data_by_identifier_ranges 0x0123 [0x01; 0x02]
                ltac:(discriminate)) as [_ [Hlow _]].
  split; [discriminate|]. split.
  - apply Hhigh. vm_compute. split; [discriminate | reflexivity].
  - apply Hlow. vm_compute. split; [discriminate | reflexivity].
Defined.

End TransferAndWrite.

(** ** RequestDownload *)

Section RequestDownload.
Import Py Wire Services.

(** X20: request_download writes the address and the size with as many
    bytes as each value needs on its own (leading byte at least 0x10); the
    format identifier is copied as one masked byte and its nibbles do not
    set the widths. *)
Theorem request_download_widths_from_values
        (data_format_identifier address_and_length_format_identifier
         memory_address memory_size na ns : Z) :
  1 <= na -> 16 * 256 ^ (na - 1) <= memory_address < 256 ^ na ->
  1 <= ns -> 16 * 256 ^ (ns - 1) <= memory_size < 256 ^ ns ->
  exists (s : string) (abytes sbytes : list Z),
    request_download data_format_identifier address_and_length_format_identifier
                     memory_address memory_size = Ok s
    /\ parse_request s
       = Some (Sid.RD :: data_format_identifier mod 256
                 :: address_and_length_format_identifier mod 256
                 :: (abytes ++ sbytes)%list)
    /\ Z.of_nat (List.length abytes) = na /\ be_value abytes = memory_address
    /\ Z.of_nat (List.length sbytes) = ns /\ be_value sbytes = memory_size.
Proof.
  intros Hna Ha Hns Hs.
  assert (0 < 256 ^ (na - 1)) by (apply Z.pow_pos_nonneg; lia).
  assert (0 < 256 ^ (ns - 1)) by (apply Z.pow_pos_nonneg; lia).
  unfold request_download. cbv zeta.
  rewrite (convert_leading_high memory_address na Hna Ha).
  rewrite (convert_leading_high memory_size ns Hns Hs). cbn [bind].
  eexists _, (sized_bytes memory_address na), (sized_bytes memory_size ns).
  split; [reflexivity|]. split.
  - rewrite parse_sid_then by now vm_compute.
    rewrite !format_02X_masked.
    rewrite !parse_hex_byte_cons by apply mod_256_byte.
    rewrite <- join_space_app, <- map_app.
    + rewrite parse_join; [reflexivity | |].
      * intros Hnil. apply app_eq_nil in Hnil. destruct Hnil as [Hnil _].
        revert Hnil. now apply sized_bytes_nonempty.
      * apply Forall_app. split; apply sized_bytes_are_bytes.
    + intros Hnil. apply map_eq_nil in Hnil. revert Hnil.
      now apply sized_bytes_nonempty.
    + intros Hnil. apply map_eq_nil in Hnil. revert Hnil.
      now apply sized_bytes_nonempty.
  - rewrite !sized_bytes_length, !sized_bytes_value by lia.
    repeat split; try lia; apply Z.mod_small; lia.
Qed.

Lemma request_download_widths_from_values_witness :
  (1 <= 2 /\ 16 * 256 ^ (2 - 1) <= 0x1000 < 256 ^ 2)
  /\ (1 <= 1 /\ 16 * 256 ^ (1 - 1) <= 0x20 < 256 ^ 1)
  /\ exists (s : string) (abytes sbytes : list Z),
      request_download 0x00 0x44 0x1000 0x20 = Ok s
      /\ parse_request s
         = Some (0x34 :: 0x00 :: 0x44 :: (abytes ++ sbytes)%list)
      /\ Z.of_nat (List.length abytes) = 2 /\ be_value abytes = 0x1000
      /\ Z.of_nat (List.length sbytes) = 1 /\ be_value sbytes = 0x20.
Proof.
  split; [vm_compute; repeat split; discriminate|].
  split; [vm_compute; repeat split; discriminate|].
  apply (request_download_widths_from_values 0x00 0x44 0x1000 0x20 2 1);
    vm_compute; repeat split; discriminate.
Defined.

End RequestDownload.

(** ** DynamicallyDefineDataIdentifier, the branches that iterate *)

Section DefineByIdentifier.
Import Py Wire Services.

Lemma define_by_identifier_bytes_are_bytes (params : list Z) :
  Forall is_byte (define_by_identifier_bytes params).
Proof.
  unfold define_by_identifier_bytes, did_bytes.
  repeat (apply Forall_cons || apply Forall_app || split);
    try apply mod_256_byte; constructor.
Qed.

Lemma define_by_identifier_body_ok (request : string) (params : list Z) :
  (4 <= List.length params)%nat ->
  define_by_identifier_body request params
  = Ok (request ++ " "
          ++ join_space (map hex_byte (define_by_identifier_bytes params))).
Proof.
  intros Hlen.
  destruct params as [|p0 [|p1 [|p2 [|p3 rest]]]]; cbn in Hlen; try lia.
  unfold define_by_identifier_body. cbn [index nth_error bind].
  unfold define_by_identifier_bytes, did_bytes.
  cbn [nth app map join_space].
  rewrite !high_byte_shift_first, !format_02X_masked.
  rewrite !(format_02X_byte (_ mod 256)) by apply mod_256_byte.
  now rewrite !append_assoc3.
Qed.

Lemma define_by_identifier_body_short (request : string) (params : list Z) :
  (List.length params < 4)%nat ->
  define_by_identifier_body request params = Raise IndexError.
Proof.
  intros Hlen.
  destruct params as [|p0 [|p1 [|p2 [|p3 rest]]]]; try reflexivity.
  cbn in Hlen. lia.
Qed.

Lemma for_each_define_by_identifier (l : list (list Z)) (request : string) :
  Forall (fun params => (4 <= List.length params)%nat) l -> l <> [] ->
  for_each define_by_identifier_body l request
  = Ok (request ++ " "
          ++ join_space (map hex_byte (flat_map define_by_identifier_bytes l))).
Proof.
  intros Hall. revert request.
  induction Hall as [|params l Hlen Hall IH]; intros request Hne; [congruence|].
  cbn [for_each flat_map]. rewrite define_by_identifier_body_ok by exact Hlen.
  cbn [bind]. destruct l as [|params' l].
  - cbn [for_each flat_map]. now rewrite app_nil_r.
  - rewrite IH by discriminate.
    rewrite map_app, join_space_app, !append_assoc3; [reflexivity | |].
    + unfold define_by_identifier_bytes, did_bytes. discriminate.
    + cbn [flat_map]. unfold define_by_identifier_bytes at 1, did_bytes.
      discriminate.
Qed.

(** X21: with definition type 1 and tuples of at least four fields, the
    operation prints nothing and returns a request that reads back as SID,
    0x01 and, for each tuple in order, the two bytes of the target
    identifier, the two bytes of the source identifier, the masked position
    and the masked size. *)
Theorem define_by_identifier_decodes (l : list (list Z)) :
  Forall (fun params => (4 <= List.length params)%nat) l ->
  exists s : string,
    dynamically_define_data_identifier 0x01 (ParamList l) = ([], Ok s)
    /\ parse_request s
       = Some (Sid.DDDI :: 0x01 :: flat_map define_by_identifier_bytes l).
Proof.
  intros Hall. unfold dynamically_define_data_identifier.
  cbn [Z.eqb Pos.eqb supporting_iter bind].
  destruct l as [|params l].
  - eexists. split; [reflexivity|]. reflexivity.
  - rewrite for_each_define_by_identifier by (exact Hall || discriminate).
    eexists. split; [reflexivity|].
    rewrite !append_assoc3, parse_sid_then by now vm_compute.
    rewrite (format_02X_byte 1) by lia.
    rewrite parse_cons_join; [reflexivity | unfold is_byte; lia | |].
    + cbn [flat_map]. unfold define_by_identifier_bytes at 1, did_bytes.
      discriminate.
    + apply Forall_flat_map, Forall_forall. intros params' _.
      apply define_by_identifier_bytes_are_bytes.
Qed.

Lemma define_by_identifier_decodes_witness :
  Forall (fun params => (4 <= List.length params)%nat)
         [[0xF301; 0x1234; 0x01; 0x02]; [0xF302; 0x1235; 0x103; 0x04]]
  /\ exists s : string,
      dynamically_define_data_identifier 0x01
        (ParamList [[0xF301; 0x1234; 0x01; 0x02]; [0xF302; 0x1235; 0x103; 0x04]])
      = ([], Ok s)
      /\ parse_request s
         = Some [0x2C; 0x01; 0xF3; 0x01; 0x12; 0x34; 0x01; 0x02;
                 0xF3; 0x02; 0x12; 0x35; 0x03; 0x04].
Proof.
  assert (H : Forall (fun params => (4 <= List.length params)%nat)
                     [[0xF301; 0x1234; 0x01; 0x02]; [0xF302; 0x1235; 0x103; 0x04]])
    by (repeat constructor).
  split; [exact H|].
  exact (define_by_identifier_decodes _ H).
Defined.

(** X22: with definition type 1, a tuple of fewer than four fields makes the
    operation raise IndexError, wherever the tuple stands in the list. *)
Theorem define_by_identifier_short_tuple_raises (l : list (list Z)) :
  Exists (fun params => (List.length params < 4)%nat) l ->
  dynamically_define_data_identifier 0x01 (ParamList l) = ([], Raise IndexError).
Proof.
  intros Hex. unfold dynamically_define_data_identifier.
  cbn [Z.eqb Pos.eqb supporting_iter bind]. f_equal.
  generalize (format_02X Sid.DDDI ++ " " ++ format_02X 1) as request.
  induction l as [|params l IH]; intros request; [inversion Hex|].
  cbn [for_each].
  destruct (le_lt_dec 4 (List.length params)) as [Hlong|Hshort].
  - rewrite define_by_identifier_body_ok by exact Hlong. cbn [bind].
    apply IH. inversion Hex as [? ? Hhead|]; [lia | assumption].
  - now rewrite define_by_identifier_body_short.
Qed.

Lemma define_by_identifier_short_tuple_raises_witness :
  Exists (fun params => (List.length params < 4)%nat)
         [[0xF301; 0x1234; 0x01; 0x02]; [0xF302; 0x1235; 0x03]]
  /\ dynamically_define_data_identifier 0x01
       (ParamList [[0xF301; 0x1234; 0x01; 0x02]; [0xF302; 0x1235; 0x03]])
     = ([], Raise IndexError).
Proof.
  assert (H : Exists (fun params => (List.length params < 4)%nat)
                     [[0xF301; 0x1234; 0x01; 0x02]; [0xF302; 0x1235; 0x03]])
    by (apply Exists_cons_tl, Exists_cons_hd; cbn; repeat constructor).
  split; [exact H|].
  exact (define_by_identifier_short_tuple_raises _ H).
Defined.

End DefineByIdentifier.

(** ** Fields written in decimal *)

Section DecimalTokens.
Import Py Wire Services.

Lemma str_below_100 (k : Z) :
  0 <= k < 100 ->
  decimal_text k = if k <? 10 then String (digit_char k) ""
          else hex_byte (decimal_read_as_hex k).
Proof.
  intros Hk.
  assert (Hall : forallb
                   (fun n => String.eqb (decimal_text (Z.of_nat n))
                               (if Z.of_nat n <? 10
                                then String (digit_char (Z.of_nat n)) ""
                                else hex_byte (decimal_read_as_hex (Z.of_nat n))))
                   (seq 0 100) = true) by (vm_compute; reflexivity).
  rewrite forallb_forall in Hall. specialize (Hall (Z.to_nat k)).
  rewrite Z2Nat.id in Hall by lia. apply String.eqb_eq, Hall, in_seq. lia.
Qed.

Lemma decimal_read_as_hex_byte (k : Z) :
  0 <= k < 100 -> is_byte (decimal_read_as_hex k).
Proof.
  intros Hk. unfold decimal_read_as_hex, is_byte.
  pose proof (Z.mod_pos_bound k 10 ltac:(lia)).
  assert (0 <= k / 10 < 10)
    by (split; [apply Z.div_pos; lia | apply Z.div_lt_upper_bound; lia]).
  lia.
Qed.

Lemma decimal_read_as_hex_differs (k : Z) :
  10 <= k -> decimal_read_as_hex k <> k.
Proof.
  intros Hk. unfold decimal_read_as_hex.
  pose proof (Z.div_mod k 10 ltac:(lia)).
  assert (1 <= k / 10) by (apply Z.div_le_lower_bound; lia). lia.
Qed.

Lemma decimal_read_as_hex_same_iff (k : Z) :
  0 <= k -> (decimal_read_as_hex k =? k) = (k <? 10).
Proof.
  intros Hk. destruct (Z.ltb_spec k 10) as [Hlt|Hge].
  - apply Z.eqb_eq. unfold decimal_read_as_hex.
    rewrite Z.div_small, Z.mod_small by lia. lia.
  - apply Z.eqb_neq. now apply decimal_read_as_hex_differs.
Qed.

(** What is read from a decimal token that ends the request. *)
Lemma parse_str_last (k : Z) :
  0 <= k ->
  parse_request (decimal_text k)
  = if (10 <=? k) && (k <=? 99) then Some [decimal_read_as_hex k] else None.
Proof.
  intros Hk.
  destruct (Z.leb_spec 10 k) as [H10|H10]; cbn [andb].
  - destruct (Z.leb_spec k 99) as [H99|H99].
    + rewrite str_below_100 by lia. destruct (Z.ltb_spec k 10); [lia|].
      apply parse_hex_byte, decimal_read_as_hex_byte. lia.
    + unfold decimal_text. destruct (Z.ltb_spec k 0); [lia|].
      destruct (render_long 10 k ltac:(lia) ltac:(lia)) as (a & b & c & rest & ->).
      apply parse_three_unspaced, digit_char_not_space.
  - rewrite str_below_100 by lia. destruct (Z.ltb_spec k 10); [|lia].
    reflexivity.
Qed.

(** What is read from a decimal token that is followed by more text. *)
Lemma parse_str_then (k : Z) (s : string) :
  0 <= k ->
  parse_request (decimal_text k ++ " " ++ s)
  = if (10 <=? k) && (k <=? 99)
    then option_map (cons (decimal_read_as_hex k)) (parse_request s)
    else None.
Proof.
  intros Hk.
  destruct (Z.leb_spec 10 k) as [H10|H10]; cbn [andb].
  - destruct (Z.leb_spec k 99) as [H99|H99].
    + rewrite str_below_100 by lia. destruct (Z.ltb_spec k 10); [lia|].
      apply parse_hex_byte_cons, decimal_read_as_hex_byte. lia.
    + unfold decimal_text. destruct (Z.ltb_spec k 0); [lia|].
      destruct (render_long 10 k ltac:(lia) ltac:(lia)) as (a & b & c & rest & ->).
      cbn [append]. apply parse_three_unspaced, digit_char_not_space.
  - rewrite str_below_100 by lia. destruct (Z.ltb_spec k 10); [|lia].
    cbn [append parse_request]. destruct (hex_digit_value (digit_char k)); reflexivity.
Qed.

Lemma parse_str_negative (k : Z) (s : string) :
  k < 0 -> parse_request (decimal_text k ++ s) = None.
Proof.
  intros Hk. unfold decimal_text. destruct (Z.ltb_spec k 0); [|lia].
  cbn [append]. apply parse_signed.
Qed.

(** X23: when a node identification number is given, communication_control
    writes its low byte in decimal.  The request can be read back only when
    that byte is between 10 and 99, and then the receiver reads the two
    decimal digits as hexadecimal, a value different from the byte. *)
Theorem communication_control_node_decodes
        (control_type communication_type node : Z) :
  parse_request (communication_control control_type communication_type (Some node))
  = (if (10 <=? node mod 256) && (node mod 256 <=? 99)
     then Some [Sid.CC; control_type mod 256; communication_type mod 256;
                (node / 256) mod 256; decimal_read_as_hex (node mod 256)]
     else None)
  /\ (decimal_read_as_hex (node mod 256) =? node mod 256)
     = (node mod 256 <? 10).
Proof.
  split; [|apply decimal_read_as_hex_same_iff, Z.mod_pos_bound; lia].
  unfold communication_control. cbv zeta.
  rewrite !append_assoc3, parse_sid_then by now vm_compute.
  rewrite !format_02X_masked, high_byte, land_FF.
  rewrite (format_02X_byte ((node / 256) mod 256)) by apply mod_256_byte.
  rewrite !parse_hex_byte_cons by apply mod_256_byte.
  rewrite parse_str_last by (apply Z.mod_pos_bound; lia).
  destruct ((10 <=? node mod 256) && (node mod 256 <=? 99)); reflexivity.
Qed.

Lemma identifier_tokens_parse (ids : list Z) :
  ids <> [] ->
  parse_request
    (join_space
       (map (fun value =>
               format_02X (Z.shiftr (Z.land value 0xFF00) 8)
                 ++ " " ++ decimal_text (Z.land value 0xFF)) ids))
  = if forallb (fun v => (10 <=? v mod 256) && (v mod 256 <=? 99)) ids
    then Some (flat_map (fun v => [(v / 256) mod 256;
                                   decimal_read_as_hex (v mod 256)]) ids)
    else None.
Proof.
  induction ids as [|v ids IH]; [congruence|]. intros _.
  assert (Hlow : 0 <= v mod 256) by (apply Z.mod_pos_bound; lia).
  destruct ids as [|v' ids].
  - cbn [map join_space forallb flat_map app].
    rewrite high_byte, land_FF.
    rewrite (format_02X_byte ((v / 256) mod 256)) by apply mod_256_byte.
    rewrite parse_hex_byte_cons by apply mod_256_byte.
    rewrite parse_str_last by exact Hlow. rewrite andb_true_r.
    destruct ((10 <=? v mod 256) && (v mod 256 <=? 99)); reflexivity.
  - change (join_space (map ?f (v :: v' :: ids)))
      with (f v ++ " " ++ join_space (map f (v' :: ids))).
    cbv beta. rewrite high_byte, land_FF, !append_assoc3.
    rewrite (format_02X_byte ((v / 256) mod 256)) by apply mod_256_byte.
    rewrite parse_hex_byte_cons by apply mod_256_byte.
    rewrite parse_str_then by exact Hlow.
    rewrite IH by discriminate.
    change (forallb ?p (v :: v' :: ids)) with (p v && forallb p (v' :: ids)).
    cbv beta.
    destruct ((10 <=? v mod 256) && (v mod 256 <=? 99)); [|reflexivity].
    cbn [andb].
    destruct (forallb _ (v' :: ids)); reflexivity.
Qed.

(** X24: read_data_by_identifier writes the low byte of every identifier in
    decimal.  A non-empty request can be read back only when every low byte
    is between 10 and 99, and then each one is read as its decimal digits
    taken as hexadecimal. *)
Theorem read_data_by_identifier_decodes (ids : list Z) :
  ids <> [] ->
  parse_request (read_data_by_identifier ids)
  = if forallb (fun v => (10 <=? v mod 256) && (v mod 256 <=? 99)) ids
    then Some (Sid.RDBI
                 :: flat_map (fun v => [(v / 256) mod 256;
                                        decimal_read_as_hex (v mod 256)]) ids)
    else None.
Proof.
  intros Hne. unfold read_data_by_identifier.
  rewrite parse_sid_then by now vm_compute.
  rewrite identifier_tokens_parse by exact Hne.
  destruct (forallb _ ids); reflexivity.
Qed.

Lemma read_data_by_identifier_decodes_witness :
  [0xF190; 0xF112] <> []
  /\ parse_request (read_data_by_identifier [0xF190; 0xF112]) = None
  /\ parse_request (read_data_by_identifier [0xF112])
     = Some [0x22; 0xF1; 0x18].
Proof.
  split; [discriminate|]. split.
  - exact (read_data_by_identifier_decodes [0xF190; 0xF112] ltac:(discriminate)).
  - exact (read_data_by_identifier_decodes [0xF112] ltac:(discriminate)).
Defined.

End DecimalTokens.

(** ** ReadMemoryByAddress and LinkControl: decimal tokens *)

Section DecimalFormatByte.
Import Py Wire Services.

Lemma parse_str_any (k : Z) :
  parse_request (decimal_text k)
  = if (10 <=? k) && (k <=? 99) then Some [decimal_read_as_hex k] else None.
Proof.
  destruct (Z.lt_ge_cases k 0) as [Hneg|Hpos].
  - destruct (Z.leb_spec 10 k); [lia|]. cbn [andb].
    unfold decimal_text. destruct (Z.ltb_spec k 0); [|lia]. apply parse_signed.
  - now apply parse_str_last.
Qed.

(** X25: read_memory_by_address writes the format identifier in decimal.
    For an identifier from 10 to 99 with both nibbles non-zero the request
    reads back, but with a format byte different from the one given,
    followed by the address and size bytes at the nibble widths. *)
Theorem read_memory_by_address_format_byte_misread (fmt addr size : Z) :
  10 <= fmt mod 256 <= 99 ->
  1 <= Z.land fmt 0xF -> 1 <= Z.shiftr (Z.land fmt 0xF0) 4 ->
  exists abytes sbytes : list Z,
    parse_request (read_memory_by_address fmt addr size)
    = Some (Sid.RMBA :: decimal_read_as_hex (fmt mod 256)
              :: (abytes ++ sbytes)%list)
    /\ decimal_read_as_hex (fmt mod 256) <> fmt mod 256
    /\ Z.of_nat (List.length abytes) = Z.land fmt 0xF
    /\ Z.of_nat (List.length sbytes) = Z.shiftr (Z.land fmt 0xF0) 4
    /\ be_value abytes = addr mod 256 ^ Z.land fmt 0xF
    /\ be_value sbytes = size mod 256 ^ Z.shiftr (Z.land fmt 0xF0) 4.
Proof.
  intros Hfmt Hwa Hws.
  exists (sized_bytes addr (Z.land fmt 0xF)),
    (sized_bytes size (Z.shiftr (Z.land fmt 0xF0) 4)).
  split; [|split; [apply decimal_read_as_hex_differs; lia|]].
  - unfold read_memory_by_address. cbv zeta.
    rewrite !join_sized_bytes, !append_assoc3, land_FF.
    rewrite parse_sid_then by now vm_compute.
    rewrite parse_str_then by lia.
    destruct (Z.leb_spec 10 (fmt mod 256)); [|lia].
    destruct (Z.leb_spec (fmt mod 256) 99); [|lia]. cbn [andb].
    rewrite <- join_space_app, <- map_app.
    + rewrite parse_join; [reflexivity | |].
      * intros Hnil. apply app_eq_nil in Hnil. destruct Hnil as [Hnil _].
        revert Hnil. now apply sized_bytes_nonempty.
      * apply Forall_app. split; apply sized_bytes_are_bytes.
    + intros Hnil. apply map_eq_nil in Hnil. revert Hnil.
      now apply sized_bytes_nonempty.
    + intros Hnil. apply map_eq_nil in Hnil. revert Hnil.
      now apply sized_bytes_nonempty.
  - rewrite !sized_bytes_length, !sized_bytes_value by lia.
    repeat split; lia.
Qed.

Lemma read_memory_by_address_format_byte_misread_witness :
  (10 <= 0x14 mod 256 <= 99
   /\ 1 <= Z.land 0x14 0xF /\ 1 <= Z.shiftr (Z.land 0x14 0xF0) 4)
  /\ exists abytes sbytes : list Z,
      parse_request (read_memory_by_address 0x14 0x1000 0x0100)
      = Some (0x23 :: 0x20 :: (abytes ++ sbytes)%list)
      /\ 0x20 <> 0x14
      /\ Z.of_nat (List.length abytes) = 4
      /\ Z.of_nat (List.length sbytes) = 1
      /\ be_value abytes = 0x1000
      /\ be_value sbytes = 0x00.
Proof.
  split; [vm_compute; repeat split; discriminate|].
  apply (read_memory_by_address_format_byte_misread 0x14 0x1000 0x0100);
    vm_compute; repeat split; discriminate.
Defined.

(** X26: link_control writes the mode identifier in decimal and unmasked.
    With a mode identifier and no link record it raises ValueError when the
    identifier has more than 4300 decimal digits; otherwise the request can
    be read back only for identifiers from 10 to 99, and then the receiver
    reads the two decimal digits as hexadecimal.  Without either optional
    field it reads back as SID and masked type. *)
Theorem link_control_mode_decodes (link_control_type mode : Z) :
  read_back (link_control link_control_type (Some mode) None)
  = (if str_limit <=? Z.abs mode then Raise ValueError
     else Ok (if (10 <=? mode) && (mode <=? 99)
              then Some [Sid.LC; link_control_type mod 256;
                         decimal_read_as_hex mode]
              else None))
  /\ read_back (link_control link_control_type None None)
     = Ok (Some [Sid.LC; link_control_type mod 256]).
Proof.
  unfold link_control, str. cbv zeta. split.
  - destruct (str_limit <=? Z.abs mode); [reflexivity|].
    cbn [bind read_back]. f_equal.
    rewrite !append_assoc3, parse_sid_then by now vm_compute.
    rewrite format_02X_masked, parse_hex_byte_cons by apply mod_256_byte.
    rewrite parse_str_any.
    destruct ((10 <=? mode) && (mode <=? 99)); reflexivity.
  - cbn [bind read_back]. f_equal.
    rewrite parse_sid_then by now vm_compute.
    rewrite format_02X_masked, parse_hex_byte by apply mod_256_byte.
    reflexivity.
Qed.

End DecimalFormatByte.

(** ** DynamicallyDefineDataIdentifier, the other branches *)

Section DefineOtherBranches.
Import Py Wire Services.

(** X27: with definition type 2 the operation returns only for the empty
    list ("2C 02"); otherwise the first tuple decides: IndexError when it
    has fewer than two fields, TypeError in every other case. *)
Theorem define_by_memory_address_outcome (l : list (list Z)) :
  dynamically_define_data_identifier 0x02 (ParamList l)
  = ([], match l with
         | [] => Ok "2C 02"
         | params :: _ =>
             Raise (if (List.length params <? 2)%nat then IndexError
                    else TypeError)
         end).
Proof.
  destruct l as [|[|p0 [|p1 fields]] l]; reflexivity.
Qed.

(** X28: with definition type 3 and an integer, the operation prints
    nothing and the request reads back as SID, 0x03 and the two low bytes of
    the identifier; supporting parameters of the wrong kind (a list for
    type 3, an integer for types 1 and 2) raise TypeError. *)
Theorem clear_dynamically_defined_decodes (d : Z) (l : list (list Z)) :
  (exists s : string,
      dynamically_define_data_identifier 0x03 (ParamInt d) = ([], Ok s)
      /\ parse_request s = Some (Sid.DDDI :: 0x03 :: did_bytes d))
  /\ dynamically_define_data_identifier 0x03 (ParamList l) = ([], Raise TypeError)
  /\ dynamically_define_data_identifier 0x01 (ParamInt d) = ([], Raise TypeError)
  /\ dynamically_define_data_identifier 0x02 (ParamInt d) = ([], Raise TypeError).
Proof.
  split; [|repeat split].
  unfold dynamically_define_data_identifier.
  cbn [Z.eqb Pos.eqb supporting_value rshift and_ bind].
  eexists. split; [reflexivity|].
  rewrite !append_assoc3, parse_sid_then by now vm_compute.
  rewrite (format_02X_byte 3) by lia.
  rewrite high_byte_shift_first, format_02X_masked.
  rewrite (format_02X_byte ((d / 256) mod 256)) by apply mod_256_byte.
  rewrite !parse_hex_byte_cons by (apply mod_256_byte || (unfold is_byte; lia)).
  rewrite parse_hex_byte by apply mod_256_byte. reflexivity.
Qed.

End DefineOtherBranches.

(** ** The catalogs *)

Section Catalogs.
Import Wire.

(** X29: no two service identifiers share a value and no two negative
    response codes share a value; every one of them fits in a byte. *)
Theorem catalog_values_distinct_bytes :
  NoDup Catalog.service_identifiers
  /\ Forall is_byte Catalog.service_identifiers
  /\ NoDup Catalog.negative_response_codes
  /\ Forall is_byte Catalog.negative_response_codes.
Proof.
  assert (Hs : nodup Z.eq_dec Catalog.service_identifiers
               = Catalog.service_identifiers) by (vm_compute; reflexivity).
  assert (Hn : nodup Z.eq_dec Catalog.negative_response_codes
               = Catalog.negative_response_codes) by (vm_compute; reflexivity).
  split; [rewrite <- Hs; apply NoDup_nodup|].
  split; [repeat constructor; vm_compute; discriminate|].
  split; [rewrite <- Hn; apply NoDup_nodup|].
  repeat constructor; vm_compute; discriminate.
Qed.

End Catalogs.

(** ** A header field of zero *)

Section ZeroField.
Import Py Wire Services.

Lemma parse_leading_space (s : string) : parse_request (String " " s) = None.
Proof. destruct s; reflexivity. Qed.

Lemma unreadable_empty_first_token (sid : Z) (rest : string) :
  is_byte sid -> parse_request (format_02X sid ++ " " ++ "" ++ " " ++ rest) = None.
Proof.
  intros Hsid. rewrite parse_sid_then by exact Hsid.
  cbn [append]. now rewrite parse_leading_space.
Qed.

(** X30: the helper writes 0 as the empty text, so a first header field of
    zero leaves an empty token behind the SID: whenever one of the helper's
    callers returns for such a field, the request cannot be read back. *)
Theorem zero_first_field_unreadable
        (b c d : Z) (record : list Z) (mask : option (list Z)) :
  convert_int_to_str_of_bytes 0 = Ok ""
  /\ unreadable (write_data_by_identifier 0 record)
  /\ unreadable (write_memory_by_address 0 b c record)
  /\ unreadable (read_dtc_information 0 record)
  /\ unreadable (input_output_control_by_identifier 0 record mask)
  /\ unreadable (routine_control 0 b mask)
  /\ unreadable (request_upload 0 b c d)
  /\ unreadable (transfer_data 0 record).
Proof.
  assert (H0 : convert_int_to_str_of_bytes 0 = Ok "") by reflexivity.
  unfold write_data_by_identifier, write_memory_by_address, read_dtc_information,
    input_output_control_by_identifier, routine_control, request_upload,
    transfer_data.
  rewrite !H0. cbn [bind].
  repeat split;
    repeat match goal with
           | |- unreadable (bind (convert_int_to_str_of_bytes ?x) _) =>
               destruct (convert_int_to_str_of_bytes x); cbn [bind unreadable];
               [|exact I]
           end;
    cbn [unreadable]; apply unreadable_empty_first_token; now vm_compute.
Qed.

End ZeroField.

(** ** The decimal digit limit *)

Section DecimalLimit.
Import Py Wire Services.

Lemma str_limit_above_byte : 256 <= str_limit.
Proof. apply Z.leb_le. vm_compute. reflexivity. Qed.

Lemma str_small (n : Z) : Z.abs n < str_limit -> str n = Ok (decimal_text n).
Proof.
  intros Hn. unfold str. now destruct (Z.leb_spec str_limit (Z.abs n)); [lia|].
Qed.

Lemma str_huge (n : Z) : str_limit <= Z.abs n -> str n = Raise ValueError.
Proof.
  intros Hn. unfold str. now destruct (Z.leb_spec str_limit (Z.abs n)); [|lia].
Qed.

(** On a value masked to eight bits the formatting cannot raise: the
    operations that format such a value use its decimal text directly. *)
Lemma str_of_masked (v : Z) :
  str (Z.land v 0xFF) = Ok (decimal_text (Z.land v 0xFF)).
Proof.
  apply str_small. pose proof (land_FF_byte v) as Hb. unfold is_byte in Hb.
  pose proof str_limit_above_byte. lia.
Qed.

(** Beyond the limit the last branch raises before anything is printed. *)
Lemma invalid_definition_type_huge (definition_type : Z)
      (supporting_params : supporting) :
  str_limit <= Z.abs definition_type ->
  dynamically_define_data_identifier definition_type supporting_params
  = ([], Raise ValueError).
Proof.
  intros Hbig. pose proof str_limit_above_byte as Hlimit.
  unfold dynamically_define_data_identifier.
  destruct (Z.eqb_spec definition_type 0x01); [lia|].
  destruct (Z.eqb_spec definition_type 0x02); [lia|].
  destruct (Z.eqb_spec definition_type 0x03); [lia|].
  unfold invalid_definition_type_message. now rewrite str_huge.
Qed.

(** C9, as stated, fails: at the definition type 10^4300, which is none of
    1, 2 and 3, formatting the warning raises ValueError; nothing is printed
    and no request is returned. *)
Lemma invalid_definition_type_raises_at_limit :
  10 ^ 4300 <> 0x01 /\ 10 ^ 4300 <> 0x02 /\ 10 ^ 4300 <> 0x03
  /\ dynamically_define_data_identifier (10 ^ 4300) (ParamList [])
     = ([], Raise ValueError).
Proof.
  split; [vm_compute; discriminate|].
  split; [vm_compute; discriminate|].
  split; [vm_compute; discriminate|].
  apply invalid_definition_type_huge, Z.leb_le. vm_compute. reflexivity.
Qed.

Lemma digits_text_no_space (ds : list Z) :
  no_space (string_of_list_ascii (map digit_char ds)) = true.
Proof.
  induction ds as [|d ds IH]; [reflexivity|].
  cbn [map string_of_list_ascii no_space].
  now rewrite digit_char_not_space, IH.
Qed.

Lemma format_02X_no_space (n : Z) : no_space (format_02X n) = true.
Proof.
  unfold format_02X, render. destruct (n <? 0).
  - cbn [append no_space]. now rewrite digits_text_no_space.
  - cbv zeta. destruct (_ <? 2)%nat; [cbn [append no_space]|];
      now rewrite digits_text_no_space.
Qed.

(** C9 (amended): for a definition type other than 1, 2 and 3 with at most
    4300 decimal digits, the operation prints one warning line, does not
    raise, and returns the SID "2C" followed by a single token, the same
    whatever the supporting parameters are; for a definition type within
    0..255 that token is the discriminant byte. *)
Theorem invalid_definition_type_reported (definition_type : Z) :
  definition_type <> 0x01 -> definition_type <> 0x02 -> definition_type <> 0x03 ->
  Z.abs definition_type < str_limit ->
  exists token : string,
    (forall supporting_params : supporting,
        dynamically_define_data_identifier definition_type supporting_params
        = (["invalid definition_type " ++ decimal_text definition_type
              ++ ". possible values -> 0 to 3. request sent without supporting_params"],
           Ok ("2C " ++ token)))
    /\ no_space token = true
    /\ (0 <= definition_type < 256 -> token = hex_byte definition_type).
Proof.
  intros H1 H2 H3 Hsmall. exists (format_02X definition_type).
  split; [|split; [apply format_02X_no_space | apply format_02X_byte]].
  intros supporting_params. unfold dynamically_define_data_identifier.
  destruct (Z.eqb_spec definition_type 0x01); [contradiction|].
  destruct (Z.eqb_spec definition_type 0x02); [contradiction|].
  destruct (Z.eqb_spec definition_type 0x03); [contradiction|].
  unfold invalid_definition_type_message. rewrite str_small by exact Hsmall.
  reflexivity.
Qed.

Lemma invalid_definition_type_reported_witness :
  (0x04 <> 0x01 /\ 0x04 <> 0x02 /\ 0x04 <> 0x03 /\ Z.abs 0x04 < str_limit)
  /\ exists token : string,
      (forall supporting_params : supporting,
          dynamically_define_data_identifier 0x04 supporting_params
          = (["invalid definition_type 4. possible values -> 0 to 3. request sent without supporting_params"],
             Ok ("2C " ++ token)))
      /\ no_space token = true
      /\ (0 <= 0x04 < 256 -> token = "04").
Proof.
  assert (Hsmall : Z.abs 0x04 < str_limit) by (vm_compute; reflexivity).
  split; [repeat split; try discriminate; exact Hsmall|].
  exact (invalid_definition_type_reported 0x04
           ltac:(discriminate) ltac:(discriminate) ltac:(discriminate) Hsmall).
Defined.

End DecimalLimit.
